(** * TheRaven Bulk Order Editor: the route module [app/routes/app._index.tsx]

    A shallow embedding of the route's server [action], of the values it
    handles (form data, the JSON answer of the Admin GraphQL API, the
    object it returns) and of the two submit handlers of the
    [BulkOrderEditor] component, followed by the properties of the
    written specification that can be settled on that code. *)

From Stdlib Require Import List NArith ZArith Lia Bool String Ascii.
Import ListNotations.
Set Warnings "-register-all".
Local Open Scope N_scope.
Local Open Scope list_scope.

(** ** JavaScript values *)

Module JS.

(** A JavaScript string is a sequence of UTF-16 code units. *)
Definition code_unit := N.
Definition jsstring := list code_unit.

(** A string literal of the source (the literals of this file are ASCII). *)
Definition lit (s : string) : jsstring :=
  map N_of_ascii (list_ascii_of_string s).

Fixpoint string_eqb (a b : jsstring) : bool :=
  match a, b with
  | [], [] => true
  | x :: a', y :: b' => (x =? y) && string_eqb a' b'
  | _, _ => false
  end.

(** A Number is a binary64 value.  [Finite m e] stands for [m * 2^e]; the two
    zeros are not told apart (the source only tests a zero for truthiness). *)
Inductive number :=
| NaN
| Infinity (negative : bool)
| Finite (m e : Z).

Definition integer (z : Z) : number := Finite z 0.

(** The values [response.json()] can produce, plus [undefined]. An object
    is the list of its own properties; the first binding of a name is the
    property. *)
Inductive value :=
| VUndefined
| VNull
| VBool (b : bool)
| VNum (n : number)
| VStr (s : jsstring)
| VArr (items : list value)
| VObj (props : list (jsstring * value)).

Definition number_truthy (n : number) : bool :=
  match n with
  | NaN => false
  | Infinity _ => true
  | Finite m _ => negb (m =? 0)%Z
  end.

(** ToBoolean *)
Definition truthy (v : value) : bool :=
  match v with
  | VUndefined | VNull => false
  | VBool b => b
  | VNum n => number_truthy n
  | VStr s => match s with [] => false | _ => true end
  | VArr _ | VObj _ => true
  end.

(** [a || b] *)
Definition or_else (a b : value) : value := if truthy a then a else b.

(** [a || b] on two Numbers *)
Definition number_or (a b : number) : number :=
  if number_truthy a then a else b.

Fixpoint lookup (k : jsstring) (ps : list (jsstring * value)) : value :=
  match ps with
  | [] => VUndefined
  | (k', v) :: rest => if string_eqb k k' then v else lookup k rest
  end.

(** Reading a property that no prototype defines: every name the source
    reads ([data], [orders], [edges], [pageInfo], [hasNextPage]) is one. *)
Definition prop (k : jsstring) (v : value) : value :=
  match v with
  | VObj ps => lookup k ps
  | _ => VUndefined
  end.

Definition nullish (v : value) : bool :=
  match v with
  | VUndefined | VNull => true
  | _ => false
  end.

(** [v.k]: a TypeError ([None]) on [null] and [undefined]. *)
Definition member (v : value) (k : jsstring) : option value :=
  if nullish v then None else Some (prop k v).

(** [v?.k] *)
Definition opt_member (v : value) (k : jsstring) : value :=
  if nullish v then VUndefined else prop k v.

(** *** parseInt *)

(** WhiteSpace and LineTerminator code points (StrWhiteSpaceChar). *)
Definition is_white_space (c : code_unit) : bool :=
  (c =? 9) || (c =? 10) || (c =? 11) || (c =? 12) || (c =? 13) || (c =? 32)
  || (c =? 160) || (c =? 5760) || ((8192 <=? c) && (c <=? 8202))
  || (c =? 8232) || (c =? 8233) || (c =? 8239) || (c =? 8287)
  || (c =? 12288) || (c =? 65279).

Fixpoint trim_start (s : jsstring) : jsstring :=
  match s with
  | c :: rest => if is_white_space c then trim_start rest else s
  | [] => []
  end.

Definition digit_value (c : code_unit) : option N :=
  if (48 <=? c) && (c <=? 57) then Some (c - 48)
  else if (97 <=? c) && (c <=? 122) then Some (c - 97 + 10)
  else if (65 <=? c) && (c <=? 90) then Some (c - 65 + 10)
  else None.

(** The code units of the decimal digits. *)
Definition is_decimal (c : code_unit) : Prop := 48 <= c <= 57.

Definition radix_digit (R : N) (c : code_unit) : option N :=
  match digit_value c with
  | Some d => if d <? R then Some d else None
  | None => None
  end.

(** The longest prefix of radix-[R] digits: how many there are, and the
    integer they denote. *)
Fixpoint digits_prefix (R : N) (s : jsstring) (count : nat) (acc : N)
  : nat * N :=
  match s with
  | c :: rest =>
      match radix_digit R c with
      | Some d => digits_prefix R rest (S count) (acc * R + d)
      | None => (count, acc)
      end
  | [] => (count, acc)
  end.

Definition signed (negative : bool) (n : N) : Z :=
  if negative then (- Z.of_N n)%Z else Z.of_N n.

(** The Number for a mathematical integer: round to nearest, ties to even,
    on a 53-bit significand; [Infinity] from [2^1024] on. *)
Definition to_double (negative : bool) (z : N) : number :=
  if z <? 2 ^ 53 then Finite (signed negative z) 0
  else
    let e := N.log2 z - 52 in
    let q := N.shiftr z e in
    let r := z mod 2 ^ e in
    let half := 2 ^ (e - 1) in
    let q' := if (half <? r) || ((r =? half) && N.odd q) then q + 1 else q in
    if 1024 <=? N.log2 (q' * 2 ^ e) then Infinity negative
    else Finite (signed negative q') (Z.of_N e).

(** [parseInt(string)] with no radix argument. *)
Definition parseInt (inputString : jsstring) : number :=
  let S0 := trim_start inputString in
  let negative := match S0 with c :: _ => c =? 45 | [] => false end in
  let S1 :=
    match S0 with
    | c :: rest => if (c =? 43) || (c =? 45) then rest else S0
    | [] => S0
    end in
  let '(R, S2) :=
    match S1 with
    | c0 :: c1 :: rest =>
        if (c0 =? 48) && ((c1 =? 120) || (c1 =? 88)) then (16, rest)
        else (10, S1)
    | _ => (10, S1)
    end in
  let '(count, mathInt) := digits_prefix R S2 0%nat 0 in
  match count with
  | O => NaN
  | _ => to_double negative mathInt
  end.

(** *** Number.prototype.toString on an array length *)

Fixpoint decimal_fuel (fuel : nat) (n : N) (acc : jsstring) : jsstring :=
  match fuel with
  | O => acc
  | S f =>
      let acc' := (48 + n mod 10) :: acc in
      if n / 10 =? 0 then acc' else decimal_fuel f (n / 10) acc'
  end.

Definition length_to_string (len : nat) : jsstring :=
  let n := N.of_nat len in
  decimal_fuel (S (N.to_nat (N.log2 n))) n [].

End JS.

Import JS.

(** ** Form data *)

Module Form.

(** A FormDataEntryValue is a string or a File. *)
Inductive entry :=
| EString (s : jsstring)
| EFile (name : jsstring).

(** The entries in insertion order; a name may occur more than once. *)
Definition FormData := list (jsstring * entry).

(** [formData.get(name)]: the first value of that name, or [null]. *)
Fixpoint get (formData : FormData) (name : jsstring) : option entry :=
  match formData with
  | [] => None
  | (n, v) :: rest => if string_eqb n name then Some v else get rest name
  end.

(** [formData.append(name, value)] with a string value. *)
Definition append (formData : FormData) (name value : jsstring) : FormData :=
  formData ++ [(name, EString value)].

(** [x === "literal"] for [x] read with [get]. *)
Definition is_string (x : option entry) (s : jsstring) : bool :=
  match x with
  | Some (EString s') => string_eqb s' s
  | _ => false
  end.

(** ToString of what [get] returns, as a template literal and [parseInt]
    apply it. *)
Definition to_string (x : option entry) : jsstring :=
  match x with
  | None => lit "null"
  | Some (EString s) => s
  | Some (EFile _) => lit "[object File]"
  end.

End Form.

Import Form.

(** ** The Admin GraphQL API and the calls made to it *)

Module Remote.

Inductive operation_type := Query | Mutation.

(** A call [admin.graphql(document, { variables })]. Of the document the
    record keeps the operation, its name, the root field and the variables
    bound to that field's arguments (argument name, variable name); the
    selection set below the root field is not modelled. *)
Record GraphqlRequest := {
  operation : operation_type;
  operationName : jsstring;
  rootField : jsstring;
  rootArguments : list (jsstring * jsstring);
  variables : list (jsstring * value)
}.

(** The ways a call can fail instead of answering. *)
Inductive remote_failure := RateLimited | Unauthorized | Transient | Fatal.

Inductive remote_outcome :=
| Responds (json : value)
| Rejects (cause : remote_failure).

(** The remote side, as seen by one run of a handler: what it answers to a
    call. The handler of this file makes at most one call in a run. *)
Definition Remote := GraphqlRequest -> remote_outcome.

Inductive error :=
| TypeError
| RemoteError (cause : remote_failure).

(** A handler body: it returns, throws, or awaits a GraphQL call and goes on
    with the parsed JSON answer. *)
Inductive prog (A : Type) : Type :=
| Ret (a : A)
| Throw (e : error)
| Graphql (req : GraphqlRequest) (k : value -> prog A).

Arguments Ret {A} a.
Arguments Throw {A} e.
Arguments Graphql {A} req k.

Fixpoint bind {A B : Type} (p : prog A) (f : A -> prog B) : prog B :=
  match p with
  | Ret a => f a
  | Throw e => Throw e
  | Graphql req k => Graphql req (fun json => bind (k json) f)
  end.

Definition graphql (req : GraphqlRequest) : prog value :=
  Graphql req (fun json => Ret json).

(** [v.k] inside a handler. *)
Definition get_member (v : value) (k : jsstring) : prog value :=
  match member v k with
  | Some x => Ret x
  | None => Throw TypeError
  end.

Inductive completion (A : Type) : Type :=
| Normal (a : A)
| Abrupt (e : error).

Arguments Normal {A} a.
Arguments Abrupt {A} e.

(** Running a handler against a remote side: how it completes, and the
    calls it made, in order, each with its outcome. *)
Fixpoint run {A : Type} (remote : Remote) (p : prog A)
  : completion A * list (GraphqlRequest * remote_outcome) :=
  match p with
  | Ret a => (Normal a, [])
  | Throw e => (Abrupt e, [])
  | Graphql req k =>
      match remote req with
      | Responds json =>
          let '(c, calls) := run remote (k json) in
          (c, (req, Responds json) :: calls)
      | Rejects cause => (Abrupt (RemoteError cause), [(req, Rejects cause)])
      end
  end.

Definition is_mutation (call : GraphqlRequest * remote_outcome) : bool :=
  match operation (fst call) with
  | Mutation => true
  | Query => false
  end.

Definition mutation_calls (calls : list (GraphqlRequest * remote_outcome))
  : list (GraphqlRequest * remote_outcome) :=
  filter is_mutation calls.

End Remote.

Import Remote.

Notation "x <- p ;; q" := (bind p (fun x => q))
  (at level 61, p at next level, right associativity).

(** ** The server action *)

Module Server.

(** The object of the [search] branch. *)
Record SearchReturn := {
  orders : value;
  hasNextPage : value;
  search_fromStatus : option entry;
  search_toStatus : option entry
}.

(** The object of the [update] branch. *)
Record UpdateReturn := {
  success : bool;
  updatedCount : number;
  update_fromStatus : option entry;
  update_toStatus : option entry
}.

Inductive ActionReturn :=
| SearchResult (r : SearchReturn)      (* action: "search" *)
| UpdateResult (r : UpdateReturn)      (* action: "update" *)
| ErrorResult (error : jsstring).      (* { error } *)

(** The page size sent as [$first]. *)
Definition first : N := 250.

(** [query GetOrdersByFinancialStatus($first: Int!, $query: String!)
      { orders(first: $first, query: $query) { edges {...} pageInfo {...} } }] *)
Definition GetOrdersByFinancialStatus (fromStatus : option entry)
  : GraphqlRequest :=
  {| operation := Query;
     operationName := lit "GetOrdersByFinancialStatus";
     rootField := lit "orders";
     rootArguments := [(lit "first", lit "first"); (lit "query", lit "query")];
     variables :=
       [(lit "first", VNum (integer (Z.of_N first)));
        (lit "query", VStr (lit "financial_status:" ++ to_string fromStatus))]
  |}.

(** The handler from the point where [authenticate.admin(request)] has
    returned the [admin] client and [request.formData()] the form data:
    neither is part of this file. *)
Definition action (formData : FormData) : prog ActionReturn :=
  let actionType := get formData (lit "actionType") in
  let fromStatus := get formData (lit "fromStatus") in
  let toStatus := get formData (lit "toStatus") in
  if is_string actionType (lit "search") then
    responseJson <- graphql (GetOrdersByFinancialStatus fromStatus) ;;
    data <- get_member responseJson (lit "data") ;;
    Ret (SearchResult
      {| orders :=
           or_else (opt_member (opt_member data (lit "orders")) (lit "edges"))
                   (VArr []);
         hasNextPage :=
           or_else (opt_member
                      (opt_member (opt_member data (lit "orders"))
                                  (lit "pageInfo"))
                      (lit "hasNextPage"))
                   (VBool false);
         search_fromStatus := fromStatus;
         search_toStatus := toStatus |})
  else if is_string actionType (lit "update") then
    Ret (UpdateResult
      {| success := true;
         updatedCount :=
           number_or (parseInt (to_string (get formData (lit "orderCount"))))
                     (integer 0);
         update_fromStatus := fromStatus;
         update_toStatus := toStatus |})
  else Ret (ErrorResult (lit "Invalid action")).

(** [FINANCIAL_STATUS_OPTIONS]: label and value of each option. *)
Definition FINANCIAL_STATUS_OPTIONS : list (jsstring * jsstring) :=
  [ (lit "Select status...", lit "");
    (lit "Authorized", lit "authorized");
    (lit "Paid", lit "paid");
    (lit "Pending", lit "pending");
    (lit "Partially Paid", lit "partially_paid");
    (lit "Partially Refunded", lit "partially_refunded");
    (lit "Refunded", lit "refunded");
    (lit "Voided", lit "voided") ].

End Server.

Import Server.

(** ** Remote sides used to state and test the properties *)

Module Shop.

(** The JSON answer that carries one page of the [orders] connection. *)
Definition connection (edges : list value) (more : bool) : value :=
  VObj [(lit "data",
         VObj [(lit "orders",
                VObj [(lit "edges", VArr edges);
                      (lit "pageInfo",
                       VObj [(lit "hasNextPage", VBool more)])])])].

(** An edge as the query selects it: the order's node and its cursor. *)
Definition order_edge (id cursor : jsstring) : value :=
  VObj [(lit "node", VObj [(lit "id", VStr id)]); (lit "cursor", VStr cursor)].

Definition edge_id (edge : value) : value :=
  prop (lit "id") (prop (lit "node") edge).

Definition edge_cursor (edge : value) : value := prop (lit "cursor") edge.

Definition requested_first (req : GraphqlRequest) : nat :=
  match lookup (lit "first") (variables req) with
  | VNum (Finite m 0%Z) => Z.to_nat m
  | _ => 0%nat
  end.

Definition requested_query (req : GraphqlRequest) : jsstring :=
  match lookup (lit "query") (variables req) with
  | VStr s => s
  | _ => []
  end.

(** The cursor a request passes, [undefined] when it passes none. *)
Definition requested_cursor (req : GraphqlRequest) : value :=
  lookup (lit "after") (variables req).

Definition is_cursor (c : jsstring) (v : value) : bool :=
  match v with
  | VStr s => string_eqb s c
  | _ => false
  end.

Fixpoint after_cursor (c : jsstring) (edges : list value) : list value :=
  match edges with
  | [] => []
  | e :: rest => if is_cursor c (edge_cursor e) then rest
                 else after_cursor c rest
  end.

(** A remote side that holds, for each search query, the ordered list of
    matching orders, and serves it from the requested cursor on in pages of
    at most [limit] edges and at most the requested [first]; it reports a
    next page when edges remain after the page. With [limit] at least the
    requested size every page is full unless it is the last one. *)
Definition paging_client (limit : nat) (matching : jsstring -> list value)
  : Remote :=
  fun req =>
    let all := matching (requested_query req) in
    let rest :=
      match requested_cursor req with
      | VStr c => after_cursor c all
      | _ => all
      end in
    let n := Nat.min limit (requested_first req) in
    Responds (connection (firstn n rest) (n <? List.length rest)%nat).

(** A remote side that answers every call with a rate-limit error. *)
Definition always_rate_limited : Remote := fun _ => Rejects RateLimited.

(** A remote side that gives the same JSON answer to every call. *)
Definition answering (json : value) : Remote := fun _ => Responds json.

End Shop.

Import Shop.

(** ** The component's state and its two submit handlers *)

Module UI.

(** The declared types of what the fetcher holds. *)
Module Response.

Record SearchActionResponse := {
  orders : list value;
  hasNextPage : bool;
  search_fromStatus : jsstring;
  search_toStatus : jsstring
}.

Record UpdateActionResponse := {
  success : bool;
  updatedCount : number;
  update_fromStatus : jsstring;
  update_toStatus : jsstring
}.

Inductive ActionResponse :=
| Search (r : SearchActionResponse)
| Update (r : UpdateActionResponse)
| Error (error : jsstring).

End Response.

Inductive fetcher_state := idle | loading | submitting.

Record Fetcher := {
  state : fetcher_state;
  formData : option FormData;
  data : option Response.ActionResponse
}.

(** [fromStatus] and [toStatus] are the two [useState] cells. *)
Record Component := {
  fromStatus : jsstring;
  toStatus : jsstring;
  fetcher : Fetcher
}.

Definition isLoading (c : Component) : bool :=
  match state (fetcher c) with
  | loading | submitting => true
  | idle => false
  end.

Definition submitting_action (c : Component) (name : jsstring) : bool :=
  match formData (fetcher c) with
  | Some fd => is_string (get fd (lit "actionType")) name
  | None => false
  end.

Definition isSearching (c : Component) : bool :=
  isLoading c && submitting_action c (lit "search").

Definition isUpdating (c : Component) : bool :=
  isLoading c && submitting_action c (lit "update").

Definition orders (c : Component) : list value :=
  match data (fetcher c) with
  | Some (Response.Search r) => Response.orders r
  | _ => []
  end.

Definition hasSearched (c : Component) : bool :=
  match data (fetcher c) with
  | Some (Response.Search _) => true
  | _ => false
  end.

Definition hasUpdated (c : Component) : bool :=
  match data (fetcher c) with
  | Some (Response.Update r) => Response.success r
  | _ => false
  end.

(** What a handler does: an error toast ([isError: true]) and nothing else,
    or [fetcher.submit(formData, { method: "POST" })]. *)
Inductive handler_effect :=
| ToastError (message : jsstring)
| Submit (formData : FormData).

Definition is_empty (s : jsstring) : bool :=
  match s with
  | [] => true
  | _ => false
  end.

Definition handleSearch (c : Component) : handler_effect :=
  if is_empty (fromStatus c) then
    ToastError (lit "Please select a financial status to search for")
  else
    let formData := [] in
    let formData := append formData (lit "actionType") (lit "search") in
    let formData := append formData (lit "fromStatus") (fromStatus c) in
    let formData := append formData (lit "toStatus") (toStatus c) in
    Submit formData.

Definition handleBulkUpdate (c : Component) : handler_effect :=
  if is_empty (toStatus c) then
    ToastError (lit "Please select a status to update to")
  else if (List.length (orders c) =? 0)%nat then
    ToastError (lit "No orders found to update")
  else
    let formData := [] in
    let formData := append formData (lit "actionType") (lit "update") in
    let formData := append formData (lit "fromStatus") (fromStatus c) in
    let formData := append formData (lit "toStatus") (toStatus c) in
    let formData :=
      append formData (lit "orderCount")
             (length_to_string (List.length (orders c))) in
    Submit formData.

(** The update button is rendered under [hasSearched && orders.length > 0]. *)
Definition update_button_rendered (c : Component) : bool :=
  hasSearched c && (0 <? List.length (orders c))%nat.

(** [disabled={!fromStatus}] on the search button and [disabled={!toStatus}]
    on the update button. *)
Definition search_button_disabled (c : Component) : bool :=
  is_empty (fromStatus c).

Definition update_button_disabled (c : Component) : bool :=
  is_empty (toStatus c).

(** What the JSX renders of the results: the "Found n orders" banner, the
    "No orders found" banner, the table, and the "Update Complete!" banner.
    An update response has the three properties the last condition tests
    with [in]. *)
Definition found_banner_shown (c : Component) : bool :=
  hasSearched c && (0 <? List.length (orders c))%nat.

Definition no_orders_banner_shown (c : Component) : bool :=
  hasSearched c && negb (0 <? List.length (orders c))%nat.

Definition table_shown (c : Component) : bool :=
  hasSearched c && (0 <? List.length (orders c))%nat.

Definition update_complete_shown (c : Component) : bool :=
  hasUpdated c &&
  match data (fetcher c) with
  | Some (Response.Update _) => true
  | _ => false
  end.

(** *** getStatusBadge *)

Inductive tone := ToneSuccess | ToneInfo | ToneWarning | ToneCritical.

(** The object literal [statusMap]. *)
Definition statusMap : list (jsstring * tone) :=
  [ (lit "PAID", ToneSuccess);
    (lit "AUTHORIZED", ToneInfo);
    (lit "PENDING", ToneWarning);
    (lit "PARTIALLY_PAID", ToneWarning);
    (lit "REFUNDED", ToneCritical);
    (lit "VOIDED", ToneCritical) ].

(** The property names an object literal inherits from [Object.prototype];
    each of them holds a function or an object, which is truthy. *)
Definition object_prototype_names : list jsstring :=
  [ lit "constructor"; lit "hasOwnProperty"; lit "isPrototypeOf";
    lit "propertyIsEnumerable"; lit "toLocaleString"; lit "toString";
    lit "valueOf"; lit "__proto__"; lit "__defineGetter__";
    lit "__defineSetter__"; lit "__lookupGetter__"; lit "__lookupSetter__" ].

Fixpoint own_tone (status : jsstring) (map : list (jsstring * tone))
  : option tone :=
  match map with
  | [] => None
  | (k, t) :: rest => if string_eqb status k then Some t
                      else own_tone status rest
  end.

(** [statusMap[status] || "info"]: a tone of the map, the fallback, or the
    inherited member the lookup finds. *)
Inductive badge_tone :=
| Tone (t : tone)
| Inherited (name : jsstring).

Definition tone_of (status : jsstring) : badge_tone :=
  match own_tone status statusMap with
  | Some t => Tone t
  | None =>
      if existsb (string_eqb status) object_prototype_names
      then Inherited status
      else Tone ToneInfo
  end.

(** [status.replace(/_/g, " ")] *)
Definition label_of (status : jsstring) : jsstring :=
  map (fun c => if c =? 95 then 32 else c) status.

Record Badge := {
  badge_tone_prop : badge_tone;
  badge_children : jsstring
}.

Definition getStatusBadge (status : jsstring) : Badge :=
  {| badge_tone_prop := tone_of status;
     badge_children := label_of status |}.

End UI.

(** ** The statements of the written specification, over the code's types *)

Module Spec.

(** The allowed StatusValues: the option values other than the empty
    placeholder of the select. *)
Definition StatusValues : list jsstring :=
  filter (fun v => negb (UI.is_empty v)) (map snd FINANCIAL_STATUS_OPTIONS).

Definition valid_status (x : option entry) : Prop :=
  exists s, x = Some (EString s) /\ In s StatusValues.

(** "the integer parsed from the submitted field, or 0 when that field is
    absent or unparseable" *)
Definition parsed_or_zero (x : option entry) : number :=
  match x with
  | Some (EString s) =>
      match parseInt s with
      | NaN => integer 0
      | n => n
      end
  | _ => integer 0
  end.

(** The items of a search result. *)
Definition items (r : SearchReturn) : list value :=
  match orders r with
  | VArr es => es
  | _ => []
  end.

(** "item count never exceeds pageCap, and hasMore is true iff the true
    remote result set exceeds pageCap" *)
Definition capped_with_exact_hasMore
  (pageCap : nat) (true_set : list value) (r : SearchReturn) : Prop :=
  (List.length (items r) <= pageCap)%nat /\
  (hasNextPage r = VBool true <-> (pageCap < List.length true_set)%nat).

(** What one page-fetch call returned. *)
Definition page_connection (out : remote_outcome) : value :=
  match out with
  | Responds json => opt_member (opt_member json (lit "data")) (lit "orders")
  | Rejects _ => VUndefined
  end.

Definition page_edges (out : remote_outcome) : list value :=
  match opt_member (page_connection out) (lit "edges") with
  | VArr es => es
  | _ => []
  end.

Definition reports_more (out : remote_outcome) : bool :=
  truthy (opt_member (opt_member (page_connection out) (lit "pageInfo"))
                     (lit "hasNextPage")).

(** The cursor a call returned: the one of the last edge of its page. *)
Definition returned_cursor (out : remote_outcome) : value :=
  edge_cursor (last (page_edges out) VUndefined).

(** "passing into each call the cursor returned by the previous call" *)
Fixpoint cursors_chained (previous : option value)
  (calls : list (GraphqlRequest * remote_outcome)) : Prop :=
  match calls with
  | [] => True
  | (req, out) :: rest =>
      match previous with
      | Some c => requested_cursor req = c
      | None => True
      end /\ cursors_chained (Some (returned_cursor out)) rest
  end.

Definition accumulated (calls : list (GraphqlRequest * remote_outcome)) : nat :=
  list_sum (map (fun call => List.length (page_edges (snd call))) calls).

(** "stops only when the client reports no further pages or the accumulated
    item count reaches pageCap" *)
Definition stops_only_when_done
  (pageCap : nat) (calls : list (GraphqlRequest * remote_outcome)) : Prop :=
  match rev calls with
  | [] => False
  | (_, out) :: _ =>
      reports_more out = false \/ (pageCap <= accumulated calls)%nat
  end.

Definition paginates
  (pageCap : nat) (calls : list (GraphqlRequest * remote_outcome)) : Prop :=
  cursors_chained None calls /\ stops_only_when_done pageCap calls.

(** "no two items share an identifier" *)
Definition distinct_ids (r : SearchReturn) : Prop :=
  NoDup (map edge_id (items r)).

Definition same_id (a b : value) : bool :=
  match a, b with
  | VStr x, VStr y => string_eqb x y
  | _, _ => false
  end.

(** "de-duplicated, keeping first occurrence order" *)
Fixpoint dedup_by_id (seen : list value) (edges : list value) : list value :=
  match edges with
  | [] => []
  | e :: rest =>
      if existsb (same_id (edge_id e)) seen then dedup_by_id seen rest
      else e :: dedup_by_id (edge_id e :: seen) rest
  end.

(** An update that was not carried out: an error object, a result whose
    [success] is false, or a thrown error. *)
Definition rejected (c : completion ActionReturn) : Prop :=
  match c with
  | Normal (ErrorResult _) => True
  | Normal (UpdateResult r) => success r = false
  | Normal (SearchResult _) => False
  | Abrupt _ => True
  end.

(** A search that was refused before any remote call. *)
Definition validation_error
  (res : completion ActionReturn * list (GraphqlRequest * remote_outcome))
  : Prop :=
  (exists msg, fst res = Normal (ErrorResult msg)) /\ snd res = [].

(** A call made for one update target: a call that carries the target's
    identifier among its variables. *)
Definition call_targets (target : value)
  (call : GraphqlRequest * remote_outcome) : bool :=
  existsb (fun binding => same_id (snd binding) target)
          (variables (fst call)).

(** The mutation attempts made for one target. *)
Definition attempts_on (target : value)
  (calls : list (GraphqlRequest * remote_outcome))
  : list (GraphqlRequest * remote_outcome) :=
  filter (call_targets target) (mutation_calls calls).

(** "retries that single item exactly the max-attempts count and then
    records it as failed" *)
Definition retried_then_failed (maxAttempts : nat) (target : value)
  (res : completion ActionReturn * list (GraphqlRequest * remote_outcome))
  : Prop :=
  List.length (attempts_on target (snd res)) = maxAttempts /\
  rejected (fst res).

(** "succeeded union failed equals attempted, and the two are disjoint" *)
Definition partitions (succeeded failed attempted : list value) : Prop :=
  (forall id, In id attempted <-> In id succeeded \/ In id failed) /\
  (forall id, ~ (In id succeeded /\ In id failed)).

(** The identifiers of the orders an update is submitted for. *)
Definition attempted_ids (c : UI.Component) : list value :=
  map edge_id (UI.orders c).

(** The outcome of an update yields a succeeded set and a failed set that
    partition the attempted set. *)
Definition outcome_partitions_attempted
  (succeeded failed : UpdateReturn -> list value) : Prop :=
  forall (remote : Remote) (c : UI.Component) (fd : FormData)
         (r : UpdateReturn),
    UI.handleBulkUpdate c = UI.Submit fd ->
    fst (run remote (action fd)) = Normal (UpdateResult r) ->
    partitions (succeeded r) (failed r) (attempted_ids c).

(** A field that is absent from the answer, or [null]. *)
Definition missing (field : jsstring) (obj : value) : Prop :=
  nullish (prop field obj) = true.

Definition data_of (json : value) : value := prop (lit "data") json.
Definition orders_of (json : value) : value :=
  prop (lit "orders") (data_of json).

(** "the response is missing the data, orders, or pageInfo fields" *)
Definition missing_a_field (json : value) : Prop :=
  missing (lit "data") json \/
  missing (lit "orders") (data_of json) \/
  missing (lit "pageInfo") (orders_of json).

(** "a well-formed search response with orders equal to the empty list and
    hasNextPage equal to false" *)
Definition empty_search_response (c : completion ActionReturn) : Prop :=
  exists r, c = Normal (SearchResult r) /\
            orders r = VArr [] /\ hasNextPage r = VBool false.

(** The object the search branch returns for a JSON answer that is not
    [null], with [v?.k] written as the property read it amounts to. *)
Definition search_return (fd : FormData) (json : value) : SearchReturn :=
  {| orders :=
       or_else (prop (lit "edges") (orders_of json)) (VArr []);
     hasNextPage :=
       or_else (prop (lit "hasNextPage")
                     (prop (lit "pageInfo") (orders_of json)))
               (VBool false);
     search_fromStatus := get fd (lit "fromStatus");
     search_toStatus := get fd (lit "toStatus") |}.

(** A tail that ends a decimal numeral for [parseInt]: it does not begin
    with a decimal digit, nor with the [x] or [X] of a hexadecimal prefix. *)
Definition ends_numeral (tail : jsstring) : Prop :=
  match tail with
  | [] => True
  | c :: _ => ~ is_decimal c /\ c <> 120 /\ c <> 88
  end.

(** A status written without lower-case letters, as the enum values of the
    remote side are. *)
Definition no_lower_case (status : jsstring) : Prop :=
  Forall (fun c => ~ (97 <= c <= 122)) status.

Definition has_lower_case (s : jsstring) : bool :=
  existsb (fun c => (97 <=? c) && (c <=? 122)) s.

End Spec.

(** ** Concrete requests, remote sides and component states *)

Module Samples.

Definition form (fields : list (string * string)) : FormData :=
  map (fun f => (lit (fst f), EString (lit (snd f)))) fields.

(** What [handleBulkUpdate] submits for three found orders. *)
Definition update_3 : FormData :=
  form [("actionType", "update"); ("fromStatus", "pending");
        ("toStatus", "paid"); ("orderCount", "3")]%string.

(** An update posted with no search before it and no orders. *)
Definition update_0 : FormData :=
  form [("actionType", "update"); ("fromStatus", "pending");
        ("toStatus", "paid"); ("orderCount", "0")]%string.

(** What [handleSearch] submits for the status [pending]. *)
Definition search_pending : FormData :=
  form [("actionType", "search"); ("fromStatus", "pending");
        ("toStatus", "paid")]%string.

(** A search for a status outside the allowed set. *)
Definition search_bogus : FormData :=
  form [("actionType", "search"); ("fromStatus", "bogus");
        ("toStatus", "paid")]%string.

Definition order1 : value := order_edge (lit "gid://shopify/Order/1") (lit "c1").
Definition order2 : value := order_edge (lit "gid://shopify/Order/2") (lit "c2").
Definition order3 : value := order_edge (lit "gid://shopify/Order/3") (lit "c3").

(** Three matching orders, whatever the query. *)
Definition three_orders : jsstring -> list value :=
  fun _ => [order1; order2; order3].

(** A result set that lists order 1 twice. *)
Definition repeated_order : jsstring -> list value :=
  fun _ => [order1; order2;
            order_edge (lit "gid://shopify/Order/1") (lit "c3")].

(** An update posted with no search before it. *)
Definition update_unsearched : FormData :=
  form [("actionType", "update"); ("toStatus", "paid")]%string.

(** A remote side that serves pages of two orders. *)
Definition pages_of_two : Remote := paging_client 2 three_orders.

(** A remote side that fills every page. *)
Definition full_pages : Remote := paging_client 250 three_orders.

(** An answer with [data.orders.edges] but no [pageInfo]. *)
Definition json_without_pageInfo : value :=
  VObj [(lit "data",
         VObj [(lit "orders", VObj [(lit "edges", VArr [order1])])])].

(** The component before any search. *)
Definition fresh : UI.Component :=
  {| UI.fromStatus := lit "pending";
     UI.toStatus := lit "paid";
     UI.fetcher := {| UI.state := UI.idle;
                      UI.formData := None;
                      UI.data := None |} |}.

(** The component after a search that found three orders. *)
Definition searched : UI.Component :=
  {| UI.fromStatus := lit "pending";
     UI.toStatus := lit "paid";
     UI.fetcher :=
       {| UI.state := UI.idle;
          UI.formData := None;
          UI.data :=
            Some (UI.Response.Search
              {| UI.Response.orders := [order1; order2; order3];
                 UI.Response.hasNextPage := false;
                 UI.Response.search_fromStatus := lit "pending";
                 UI.Response.search_toStatus := lit "paid" |}) |} |}.

(** The component while a second search is in flight: the fetcher is
    submitting the new search and still holds the response of the first. *)
Definition searching_again : UI.Component :=
  {| UI.fromStatus := UI.fromStatus searched;
     UI.toStatus := UI.toStatus searched;
     UI.fetcher :=
       {| UI.state := UI.submitting;
          UI.formData := Some search_pending;
          UI.data := UI.data (UI.fetcher searched) |} |}.

(** The component after a search that found the one order [edge]. *)
Definition found_one (edge : value) : UI.Component :=
  {| UI.fromStatus := lit "pending";
     UI.toStatus := lit "paid";
     UI.fetcher :=
       {| UI.state := UI.idle;
          UI.formData := None;
          UI.data :=
            Some (UI.Response.Search
              {| UI.Response.orders := [edge];
                 UI.Response.hasNextPage := false;
                 UI.Response.search_fromStatus := lit "pending";
                 UI.Response.search_toStatus := lit "paid" |}) |} |}.

(** A request with an action type the handler does not know. *)
Definition delete_form : FormData :=
  form [("actionType", "delete"); ("fromStatus", "pending")]%string.

(** The fields of [update_3] followed by a second count and a second action
    type. *)
Definition repeated_fields : FormData :=
  form [("orderCount", "999"); ("actionType", "search")]%string.

(** An update whose count is written ["  3 orders"]. *)
Definition padded_update : FormData :=
  [(lit "actionType", EString (lit "update"));
   (lit "orderCount",
    EString (lit "  " ++ length_to_string 3 ++ lit " orders"))].

(** An update whose count is written ["-3"]. *)
Definition negative_update : FormData :=
  [(lit "actionType", EString (lit "update"));
   (lit "orderCount", EString (45 :: length_to_string 3 ++ []))].

(** The component after an update of three orders was answered. *)
Definition updated : UI.Component :=
  {| UI.fromStatus := lit "pending";
     UI.toStatus := lit "paid";
     UI.fetcher :=
       {| UI.state := UI.idle;
          UI.formData := None;
          UI.data :=
            Some (UI.Response.Update
              {| UI.Response.success := true;
                 UI.Response.updatedCount := integer 3;
                 UI.Response.update_fromStatus := lit "pending";
                 UI.Response.update_toStatus := lit "paid" |}) |} |}.

(** A search posted without a fromStatus field. *)
Definition search_without_status : FormData :=
  form [("actionType", "search"); ("toStatus", "paid")]%string.

End Samples.

(** * Properties *)

(** ** Strings and form data *)

Lemma string_eqb_refl (s : jsstring) : string_eqb s s = true.
Proof.
  induction s as [|c s IH]; simpl; [reflexivity|].
  now rewrite N.eqb_refl, IH.
Qed.

Lemma string_eqb_eq (a b : jsstring) : string_eqb a b = true <-> a = b.
Proof.
  split.
  - revert b. induction a as [|x a IH]; intros [|y b] H; simpl in H;
      try discriminate; [reflexivity|].
    apply andb_true_iff in H as [Hxy Hab].
    apply N.eqb_eq in Hxy. f_equal; auto.
  - intros ->. apply string_eqb_refl.
Qed.

(** ** Running the action *)

Lemma action_search (fd : FormData) :
  is_string (get fd (lit "actionType")) (lit "search") = true ->
  action fd =
    (responseJson <- graphql
        (GetOrdersByFinancialStatus (get fd (lit "fromStatus"))) ;;
     data <- get_member responseJson (lit "data") ;;
     Ret (SearchResult
       {| orders :=
            or_else (opt_member (opt_member data (lit "orders")) (lit "edges"))
                    (VArr []);
          hasNextPage :=
            or_else (opt_member
                       (opt_member (opt_member data (lit "orders"))
                                   (lit "pageInfo"))
                       (lit "hasNextPage"))
                    (VBool false);
          search_fromStatus := get fd (lit "fromStatus");
          search_toStatus := get fd (lit "toStatus") |})).
Proof.
  intros H. unfold action. now rewrite H.
Qed.

Lemma is_string_update_not_search (x : option entry) :
  is_string x (lit "update") = true -> is_string x (lit "search") = false.
Proof.
  destruct x as [[s|f]|]; simpl; try discriminate.
  intros H. apply string_eqb_eq in H. now subst s.
Qed.

Lemma action_update (fd : FormData) :
  is_string (get fd (lit "actionType")) (lit "update") = true ->
  action fd =
    Ret (UpdateResult
      {| success := true;
         updatedCount :=
           number_or (parseInt (to_string (get fd (lit "orderCount"))))
                     (integer 0);
         update_fromStatus := get fd (lit "fromStatus");
         update_toStatus := get fd (lit "toStatus") |}).
Proof.
  intros H. unfold action.
  now rewrite (is_string_update_not_search _ H), H.
Qed.

Lemma action_other (fd : FormData) :
  is_string (get fd (lit "actionType")) (lit "search") = false ->
  is_string (get fd (lit "actionType")) (lit "update") = false ->
  action fd = Ret (ErrorResult (lit "Invalid action")).
Proof.
  intros H1 H2. unfold action. now rewrite H1, H2.
Qed.

(** ** parseInt *)

Lemma signed_zero (negative : bool) (n : N) :
  signed negative n = 0%Z -> n = 0.
Proof. unfold signed. destruct negative; lia. Qed.

Lemma shifted_significand_positive (z : N) :
  2 ^ 53 <= z -> N.shiftr z (N.log2 z - 52) <> 0.
Proof.
  intros Hz.
  assert (Hpos : 0 < z) by (pose proof (N.pow_nonzero 2 53); lia).
  destruct (N.log2_spec z Hpos) as [Hlo _].
  rewrite N.shiftr_div_pow2.
  intros Hq. apply N.div_small_iff in Hq; [|apply N.pow_nonzero; lia].
  assert (2 ^ (N.log2 z - 52) <= 2 ^ N.log2 z)
    by (apply N.pow_le_mono_r; lia).
  lia.
Qed.

Lemma to_double_falsy (negative : bool) (z : N) :
  number_truthy (to_double negative z) = false ->
  to_double negative z = integer 0.
Proof.
  unfold to_double.
  destruct (z <? 2 ^ 53) eqn:Hsmall.
  - simpl. intros H. apply negb_false_iff, Z.eqb_eq in H.
    unfold integer. now rewrite H.
  - apply N.ltb_ge in Hsmall.
    pose proof (shifted_significand_positive z Hsmall) as Hq.
    cbv zeta.
    match goal with |- context [N.log2 (?m * _)] => set (q' := m) end.
    assert (Hq' : q' <> 0).
    { subst q'. destruct (_ || _); lia. }
    destruct (1024 <=? _); simpl; [discriminate|].
    intros H. apply negb_false_iff, Z.eqb_eq, signed_zero in H. contradiction.
Qed.

Lemma parseInt_cases (s : jsstring) :
  parseInt s = NaN \/ exists negative z, parseInt s = to_double negative z.
Proof.
  unfold parseInt.
  match goal with
  | |- context [let '(R, S2) := ?p in _] => destruct p as [R S2]
  end.
  destruct (digits_prefix R S2 0 0) as [[|count] mathInt].
  - now left.
  - right. eauto.
Qed.

(** [parseInt(x) || 0] is the parsed Number, and 0 for [NaN]. *)
Lemma parseInt_or_zero (s : jsstring) :
  number_or (parseInt s) (integer 0) =
  match parseInt s with
  | NaN => integer 0
  | n => n
  end.
Proof.
  unfold number_or.
  destruct (parseInt_cases s) as [-> | (negative & z & ->)]; [reflexivity|].
  destruct (number_truthy (to_double negative z)) eqn:Ht.
  - destruct (to_double negative z); [discriminate | reflexivity..].
  - rewrite (to_double_falsy _ _ Ht). reflexivity.
Qed.

(** *** Decimal numerals *)

Lemma decimal_radix_digit (c : code_unit) :
  is_decimal c -> radix_digit 10 c = Some (c - 48).
Proof.
  intros [Hlo Hhi]. unfold radix_digit, digit_value.
  apply N.leb_le in Hlo as Hlo'. apply N.leb_le in Hhi as Hhi'.
  rewrite Hlo', Hhi'. simpl.
  assert (H : (c - 48 <? 10) = true) by (apply N.ltb_lt; lia).
  now rewrite H.
Qed.

Lemma decimal_not_white_space (c : code_unit) :
  is_decimal c -> is_white_space c = false.
Proof.
  intros [Hlo Hhi]. unfold is_white_space.
  repeat (apply orb_false_iff; split);
    try (apply N.eqb_neq; lia).
  apply andb_false_iff. left. apply N.leb_gt. lia.
Qed.

Lemma decimal_digit_of_mod (n : N) : is_decimal (48 + n mod 10).
Proof.
  assert (H : n mod 10 < 10) by (apply N.mod_upper_bound; lia).
  unfold is_decimal. generalize dependent (n mod 10). intros d H. lia.
Qed.

Lemma digits_prefix_last_digit (n : N) (acc : jsstring) (count : nat) (a : N) :
  digits_prefix 10 ((48 + n mod 10) :: acc) count a =
  digits_prefix 10 acc (S count) (a * 10 + n mod 10).
Proof.
  cbn [digits_prefix]. rewrite (decimal_radix_digit _ (decimal_digit_of_mod n)).
  do 2 f_equal. generalize (n mod 10). intros d. lia.
Qed.

Lemma decimal_fuel_digits (f : nat) :
  forall (n : N) (acc : jsstring),
    n < 2 ^ N.of_nat (S f) ->
    Forall is_decimal acc ->
    Forall is_decimal (decimal_fuel (S f) n acc) /\
    decimal_fuel (S f) n acc <> [] /\
    exists k : nat,
      forall count a,
        digits_prefix 10 (decimal_fuel (S f) n acc) count a =
        digits_prefix 10 acc (count + S k)%nat
                      (a * 10 ^ N.of_nat (S k) + n).
Proof.
  induction f as [|f IH]; intros n acc Hn Hacc;
    pose proof (decimal_digit_of_mod n) as Hd;
    change (decimal_fuel (S ?g) n acc)
      with (if n / 10 =? 0 then (48 + n mod 10) :: acc
            else decimal_fuel g (n / 10) ((48 + n mod 10) :: acc));
    destruct (n / 10 =? 0) eqn:Hq.
  - apply N.eqb_eq, N.div_small_iff in Hq; [|lia].
    repeat split; [now constructor | discriminate |].
    exists 0%nat. intros count a.
    rewrite digits_prefix_last_digit. rewrite N.mod_small by exact Hq.
    replace (count + 1)%nat with (S count) by lia.
    reflexivity.
  - apply N.eqb_neq in Hq. exfalso. apply Hq.
    change (2 ^ N.of_nat 1) with 2 in Hn.
    apply N.div_small. lia.
  - apply N.eqb_eq, N.div_small_iff in Hq; [|lia].
    repeat split; [now constructor | discriminate |].
    exists 0%nat. intros count a.
    rewrite digits_prefix_last_digit. rewrite N.mod_small by exact Hq.
    replace (count + 1)%nat with (S count) by lia.
    reflexivity.
  - assert (Hn' : n / 10 < 2 ^ N.of_nat (S f)).
    { replace (N.of_nat (S (S f))) with (N.succ (N.of_nat (S f))) in Hn
        by lia.
      rewrite N.pow_succ_r' in Hn.
      apply N.Div0.div_lt_upper_bound. lia. }
    destruct (IH (n / 10) ((48 + n mod 10) :: acc) Hn'
                 (Forall_cons _ Hd Hacc)) as (Hall & Hne & k & Hk).
    repeat split; [exact Hall | exact Hne |].
    exists (S k). intros count a.
    rewrite Hk, digits_prefix_last_digit.
    replace (S (count + S k)) with (count + S (S k))%nat by lia.
    f_equal.
    replace (N.of_nat (S (S k))) with (N.succ (N.of_nat (S k))) by lia.
    rewrite N.pow_succ_r'.
    pose proof (N.div_mod n 10 ltac:(lia)) as Hdm.
    set (p := 10 ^ N.of_nat (S k)).
    assert (Hsum : forall q d, n = 10 * q + d ->
                     (a * p + q) * 10 + d = a * (10 * p) + n)
      by (intros; lia).
    apply Hsum, Hdm.
Qed.

Lemma length_to_string_digits (len : nat) :
  Forall is_decimal (length_to_string len) /\
  length_to_string len <> [] /\
  exists k : nat,
    digits_prefix 10 (length_to_string len) 0 0 = (S k, N.of_nat len).
Proof.
  unfold length_to_string.
  set (n := N.of_nat len).
  assert (Hn : n < 2 ^ N.of_nat (S (N.to_nat (N.log2 n)))).
  { replace (N.of_nat (S (N.to_nat (N.log2 n)))) with (N.succ (N.log2 n))
      by lia.
    destruct (N.eq_dec n 0) as [->|Hz]; [reflexivity|].
    apply N.log2_spec. lia. }
  destruct (decimal_fuel_digits _ n [] Hn (Forall_nil _))
    as (Hall & Hne & k & Hk).
  repeat split; [exact Hall | exact Hne |].
  exists k. rewrite Hk. reflexivity.
Qed.

(** On a non-empty string of decimal digits [parseInt] reads all of it in
    radix 10. *)
Lemma parseInt_decimal (s : jsstring) :
  Forall is_decimal s -> s <> [] ->
  parseInt s =
    let '(count, mathInt) := digits_prefix 10 s 0 0 in
    match count with
    | O => NaN
    | _ => to_double false mathInt
    end.
Proof.
  intros Hall Hne.
  destruct s as [|c0 s]; [contradiction|].
  inversion Hall as [|? ? Hc0 Hs]; subst.
  unfold parseInt.
  simpl trim_start. rewrite (decimal_not_white_space _ Hc0).
  assert (H45 : (c0 =? 45) = false) by (apply N.eqb_neq; destruct Hc0; lia).
  assert (H43 : (c0 =? 43) = false) by (apply N.eqb_neq; destruct Hc0; lia).
  rewrite H45, H43. simpl orb. cbv iota.
  destruct s as [|c1 s]; [reflexivity|].
  inversion Hs as [|? ? Hc1 _]; subst.
  assert (H120 : (c1 =? 120) = false) by (apply N.eqb_neq; destruct Hc1; lia).
  assert (H88 : (c1 =? 88) = false) by (apply N.eqb_neq; destruct Hc1; lia).
  rewrite H120, H88, andb_false_r. reflexivity.
Qed.

(** [parseInt(n.toString())] is [n] for an array length [n]. *)
Lemma parseInt_length_to_string (len : nat) :
  N.of_nat len < 2 ^ 53 ->
  parseInt (length_to_string len) = integer (Z.of_nat len).
Proof.
  intros Hlen.
  destruct (length_to_string_digits len) as (Hall & Hne & k & Hk).
  rewrite (parseInt_decimal _ Hall Hne), Hk.
  unfold to_double. apply N.ltb_lt in Hlen. rewrite Hlen.
  unfold integer, signed. f_equal. lia.
Qed.

(** ** The update branch *)

Lemma is_string_literal (x : option entry) (s : jsstring) :
  x = Some (EString s) -> is_string x s = true.
Proof. intros ->. apply string_eqb_refl. Qed.

Lemma updatedCount_parsed (x : option entry) :
  number_or (parseInt (to_string x)) (integer 0) = Spec.parsed_or_zero x.
Proof.
  destruct x as [[s|f]|]; [apply parseInt_or_zero | reflexivity..].
Qed.

Lemma run_update (remote : Remote) (fd : FormData) :
  get fd (lit "actionType") = Some (EString (lit "update")) ->
  run remote (action fd) =
    (Normal (UpdateResult
       {| success := true;
          updatedCount := Spec.parsed_or_zero (get fd (lit "orderCount"));
          update_fromStatus := get fd (lit "fromStatus");
          update_toStatus := get fd (lit "toStatus") |}), []).
Proof.
  intros H. rewrite (action_update fd (is_string_literal _ _ H)).
  cbn [run]. now rewrite updatedCount_parsed.
Qed.

(** C1. A POST with actionType "update" makes no remote call at all, so no
    mutation call, and returns an update response whose success is true and
    whose updatedCount is the integer parsed from the orderCount field, 0
    when that field is absent or does not parse. *)
Theorem update_is_a_placeholder (remote : Remote) (fd : FormData) :
  get fd (lit "actionType") = Some (EString (lit "update")) ->
  exists r,
    run remote (action fd) = (Normal (UpdateResult r), []) /\
    mutation_calls (snd (run remote (action fd))) = [] /\
    success r = true /\
    updatedCount r = Spec.parsed_or_zero (get fd (lit "orderCount")).
Proof.
  intros H. rewrite (run_update remote fd H).
  eexists. repeat split.
Qed.

Lemma update_is_a_placeholder_witness :
  exists r,
    run always_rate_limited (action Samples.update_3)
      = (Normal (UpdateResult r), []) /\
    mutation_calls (snd (run always_rate_limited (action Samples.update_3)))
      = [] /\
    success r = true /\
    updatedCount r
      = Spec.parsed_or_zero (get Samples.update_3 (lit "orderCount")).
Proof.
  apply (update_is_a_placeholder always_rate_limited Samples.update_3).
  reflexivity.
Defined.

Example update_3_counts_three :
  run always_rate_limited (action Samples.update_3) =
    (Normal (UpdateResult
       {| success := true;
          updatedCount := integer 3;
          update_fromStatus := Some (EString (lit "pending"));
          update_toStatus := Some (EString (lit "paid")) |}), []).
Proof. reflexivity. Qed.

Example parseInt_examples :
  parseInt (lit "3") = integer 3 /\
  parseInt (lit "  -12abc") = integer (-12) /\
  parseInt (lit "0x1A") = integer 26 /\
  parseInt (lit "null") = NaN /\
  parseInt (lit "0x") = NaN /\
  parseInt (lit "9007199254740993") = Finite 4503599627370496 1 /\
  parseInt (lit "9007199254740995") = Finite 4503599627370498 1.
Proof. vm_compute. repeat split. Qed.

(** ** The search branch *)

Lemma opt_member_prop (v : value) (k : jsstring) : opt_member v k = prop k v.
Proof. destruct v; reflexivity. Qed.

Lemma run_search (remote : Remote) (fd : FormData) :
  get fd (lit "actionType") = Some (EString (lit "search")) ->
  let req := GetOrdersByFinancialStatus (get fd (lit "fromStatus")) in
  run remote (action fd) =
    match remote req with
    | Responds json =>
        (if nullish json then Abrupt TypeError
         else Normal (SearchResult (Spec.search_return fd json)),
         [(req, Responds json)])
    | Rejects cause => (Abrupt (RemoteError cause), [(req, Rejects cause)])
    end.
Proof.
  intros H req. rewrite (action_search fd (is_string_literal _ _ H)).
  unfold graphql. cbn [bind run]. fold req.
  destruct (remote req) as [json|cause]; [|reflexivity].
  unfold get_member, member.
  destruct (nullish json); cbn [bind run]; [reflexivity|].
  unfold Spec.search_return, Spec.orders_of, Spec.data_of.
  now rewrite !opt_member_prop.
Qed.

Lemma search_request_reads (x : option entry) :
  requested_first (GetOrdersByFinancialStatus x) = 250%nat /\
  requested_cursor (GetOrdersByFinancialStatus x) = VUndefined /\
  requested_query (GetOrdersByFinancialStatus x)
    = lit "financial_status:" ++ to_string x /\
  operation (GetOrdersByFinancialStatus x) = Query.
Proof. repeat split. Qed.

Lemma items_of_search_return (fd : FormData) (json : value) :
  nullish json = false ->
  Spec.items (Spec.search_return fd json) = Spec.page_edges (Responds json).
Proof.
  intros Hjson. unfold Spec.items, Spec.page_edges, Spec.page_connection.
  rewrite !opt_member_prop. cbn [orders Spec.search_return].
  unfold Spec.orders_of, Spec.data_of, or_else.
  destruct (prop (lit "edges") (prop (lit "orders") (prop (lit "data") json)))
    as [| |b|n|s|es|ps]; cbn [truthy]; try reflexivity.
  - now destruct b.
  - now destruct (number_truthy n).
  - now destruct s.
Qed.

Lemma paging_client_first_page
  (limit : nat) (matching : jsstring -> list value) (x : option entry) :
  paging_client limit matching (GetOrdersByFinancialStatus x) =
  let all := matching (lit "financial_status:" ++ to_string x) in
  let n := Nat.min limit 250 in
  Responds (connection (firstn n all) (n <? List.length all)%nat).
Proof. reflexivity. Qed.

Lemma search_return_of_connection
  (fd : FormData) (edges : list value) (more : bool) :
  orders (Spec.search_return fd (connection edges more)) = VArr edges /\
  hasNextPage (Spec.search_return fd (connection edges more)) = VBool more.
Proof. split; [reflexivity | now destruct more]. Qed.

(** C2, as amended. Against a remote side that fills every page up to the
    requested size, a search returns at most 250 items, the fixed page size
    it asks for, and its hasNextPage is true exactly when the remote result
    set for the query has more than 250 orders. *)
Theorem search_first_page_of_full_pages
  (limit : nat) (matching : jsstring -> list value) (fd : FormData) :
  (250 <= limit)%nat ->
  get fd (lit "actionType") = Some (EString (lit "search")) ->
  exists r,
    fst (run (paging_client limit matching) (action fd))
      = Normal (SearchResult r) /\
    Spec.capped_with_exact_hasMore 250
      (matching (lit "financial_status:"
                 ++ to_string (get fd (lit "fromStatus")))) r.
Proof.
  intros Hlimit Hsearch.
  rewrite (run_search _ fd Hsearch). cbv zeta.
  rewrite paging_client_first_page. cbv zeta.
  rewrite (Nat.min_r limit 250 Hlimit).
  set (all := matching _).
  eexists. split; [reflexivity|].
  destruct (search_return_of_connection fd (firstn 250 all)
              (250 <? List.length all)%nat) as [Ho Hh].
  unfold Spec.capped_with_exact_hasMore, Spec.items.
  rewrite Ho, Hh. split.
  - apply firstn_le_length.
  - rewrite <- Nat.ltb_lt. split; [now intros [= ->] | now intros ->].
Qed.

Lemma search_first_page_of_full_pages_witness :
  exists r,
    fst (run Samples.full_pages (action Samples.search_pending))
      = Normal (SearchResult r) /\
    Spec.capped_with_exact_hasMore 250
      (Samples.three_orders
         (lit "financial_status:"
          ++ to_string (get Samples.search_pending (lit "fromStatus")))) r.
Proof.
  apply (search_first_page_of_full_pages
           250 Samples.three_orders Samples.search_pending).
  - apply Nat.le_refl.
  - reflexivity.
Defined.

(** C2, refuted as stated. The remote side holds three pending orders and
    serves them two to a page: the search returns two items with
    hasNextPage true, although the remote result set (three orders) does
    not exceed 250. *)
Lemma search_hasMore_on_short_page :
  exists r,
    fst (run Samples.pages_of_two (action Samples.search_pending))
      = Normal (SearchResult r) /\
    hasNextPage r = VBool true /\
    List.length (Spec.items r) = 2%nat /\
    ~ Spec.capped_with_exact_hasMore 250
        (Samples.three_orders (lit "financial_status:pending")) r.
Proof.
  eexists. split; [reflexivity|]. split; [reflexivity|].
  split; [reflexivity|].
  intros [_ [Hmore _]].
  specialize (Hmore eq_refl).
  change (250 < 3)%nat in Hmore. lia.
Qed.

Lemma search_calls (remote : Remote) (fd : FormData) :
  get fd (lit "actionType") = Some (EString (lit "search")) ->
  let req := GetOrdersByFinancialStatus (get fd (lit "fromStatus")) in
  snd (run remote (action fd)) = [(req, remote req)].
Proof.
  intros Hsearch req.
  rewrite (run_search remote fd Hsearch). cbv zeta. fold req.
  now destruct (remote req).
Qed.

(** C3, as amended. A search calls the remote page fetch exactly once, with
    first = 250 and no cursor, and makes no further call whatever that call
    returns or reports about further pages. *)
Theorem search_fetches_one_page (remote : Remote) (fd : FormData) :
  get fd (lit "actionType") = Some (EString (lit "search")) ->
  let req := GetOrdersByFinancialStatus (get fd (lit "fromStatus")) in
  snd (run remote (action fd)) = [(req, remote req)] /\
  operation req = Query /\
  requested_first req = 250%nat /\
  requested_cursor req = VUndefined.
Proof.
  intros Hsearch req. split; [|repeat split].
  exact (search_calls remote fd Hsearch).
Qed.

Lemma search_fetches_one_page_witness :
  let req :=
    GetOrdersByFinancialStatus (get Samples.search_pending (lit "fromStatus")) in
  snd (run Samples.pages_of_two (action Samples.search_pending))
    = [(req, Samples.pages_of_two req)] /\
  operation req = Query /\
  requested_first req = 250%nat /\
  requested_cursor req = VUndefined.
Proof.
  apply (search_fetches_one_page Samples.pages_of_two Samples.search_pending).
  reflexivity.
Defined.

(** C3, refuted as stated. Against the remote side that serves three orders
    two to a page, the search stops after its first call although that call
    reported a further page and only two items, fewer than 250, were
    accumulated. *)
Lemma search_stops_before_last_page :
  let calls := snd (run Samples.pages_of_two (action Samples.search_pending)) in
  List.length calls = 1%nat /\
  Spec.accumulated calls = 2%nat /\
  ~ Spec.paginates 250 calls.
Proof.
  cbv zeta. split; [reflexivity|]. split; [reflexivity|].
  intros [_ Hstop].
  change (true = false \/ (250 <= 2)%nat) in Hstop.
  destruct Hstop as [Hmore | Hcap]; [discriminate | lia].
Qed.

(** Against a remote side that fills every page the single call does end
    where the described loop would: with no further page, or with 250
    items. *)
Lemma search_stop_condition_on_full_pages
  (limit : nat) (matching : jsstring -> list value) (fd : FormData) :
  (250 <= limit)%nat ->
  get fd (lit "actionType") = Some (EString (lit "search")) ->
  Spec.paginates 250 (snd (run (paging_client limit matching) (action fd))).
Proof.
  intros Hlimit Hsearch.
  rewrite (search_calls (paging_client limit matching) fd Hsearch).
  rewrite paging_client_first_page. cbv zeta.
  rewrite (Nat.min_r limit 250 Hlimit).
  set (all := matching _).
  split; [cbn; auto|].
  unfold Spec.stops_only_when_done. cbn [rev app].
  change (Spec.reports_more (Responds (connection ?e ?m))) with m.
  change (Spec.accumulated [(?r, Responds (connection ?e ?m))])
    with (List.length e + 0)%nat.
  destruct (250 <? List.length all)%nat eqn:Hlt; [right | now left].
  apply Nat.ltb_lt in Hlt. rewrite Nat.add_0_r, length_firstn. lia.
Qed.

(** C4, as amended. The search result holds exactly the edges of the one
    page the remote side returned, in the order returned and without
    de-duplication; so no two items share an identifier whenever no two
    edges of that page do. *)
Theorem search_returns_page_as_is
  (remote : Remote) (fd : FormData) (json : value) :
  get fd (lit "actionType") = Some (EString (lit "search")) ->
  remote (GetOrdersByFinancialStatus (get fd (lit "fromStatus")))
    = Responds json ->
  nullish json = false ->
  exists r,
    fst (run remote (action fd)) = Normal (SearchResult r) /\
    Spec.items r = Spec.page_edges (Responds json) /\
    (NoDup (map edge_id (Spec.page_edges (Responds json))) ->
     Spec.distinct_ids r).
Proof.
  intros Hsearch Hremote Hjson.
  rewrite (run_search remote fd Hsearch). cbv zeta.
  rewrite Hremote, Hjson. cbn [fst].
  eexists. split; [reflexivity|].
  pose proof (items_of_search_return fd json Hjson) as Hitems.
  split; [exact Hitems|].
  unfold Spec.distinct_ids. now rewrite Hitems.
Qed.

Lemma search_returns_page_as_is_witness :
  exists r,
    fst (run Samples.full_pages (action Samples.search_pending))
      = Normal (SearchResult r) /\
    Spec.items r
      = Spec.page_edges
          (Responds (connection [Samples.order1; Samples.order2;
                                 Samples.order3] false)) /\
    (NoDup (map edge_id
              (Spec.page_edges
                 (Responds (connection [Samples.order1; Samples.order2;
                                        Samples.order3] false)))) ->
     Spec.distinct_ids r).
Proof.
  apply (search_returns_page_as_is
           Samples.full_pages Samples.search_pending
           (connection [Samples.order1; Samples.order2; Samples.order3]
                       false));
    reflexivity.
Defined.

(** C4, refuted as stated. The remote page lists order 1 twice: the search
    result has three items, two of them with the identifier of order 1,
    where de-duplication would keep two. *)
Lemma search_keeps_repeated_order :
  exists r,
    fst (run (paging_client 250 Samples.repeated_order)
             (action Samples.search_pending))
      = Normal (SearchResult r) /\
    List.length (Spec.items r) = 3%nat /\
    List.length (Spec.dedup_by_id [] (Spec.items r)) = 2%nat /\
    ~ Spec.distinct_ids r.
Proof.
  eexists. split; [reflexivity|]. split; [reflexivity|].
  split; [reflexivity|].
  unfold Spec.distinct_ids. cbn. intros Hnodup.
  inversion Hnodup as [|? ? Hnotin _]. apply Hnotin. right. now left.
Qed.

(** ** The update outcome *)

(** C7, as amended. The outcome of an update carries no identifier sets,
    only a count: for an update the component submits for its n found
    orders, the response has success true and updatedCount n, so every
    submitted order is counted as updated and none as failed. No remote call
    is made. *)
Theorem update_outcome_is_a_count (remote : Remote) (c : UI.Component)
  (fd : FormData) :
  UI.handleBulkUpdate c = UI.Submit fd ->
  N.of_nat (List.length (UI.orders c)) < 2 ^ 53 ->
  exists r,
    run remote (action fd) = (Normal (UpdateResult r), []) /\
    success r = true /\
    updatedCount r = integer (Z.of_nat (List.length (UI.orders c))).
Proof.
  unfold UI.handleBulkUpdate. intros Hsubmit Hlen.
  destruct (UI.is_empty (UI.toStatus c)); [discriminate|].
  destruct (List.length (UI.orders c) =? 0)%nat; [discriminate|].
  injection Hsubmit as <-.
  rewrite run_update by reflexivity.
  eexists. repeat split.
  cbn [updatedCount].
  change (get _ (lit "orderCount"))
    with (Some (EString (length_to_string (List.length (UI.orders c))))).
  unfold Spec.parsed_or_zero.
  now rewrite (parseInt_length_to_string _ Hlen).
Qed.

Lemma update_outcome_is_a_count_witness :
  exists r,
    run Samples.full_pages (action Samples.update_3)
      = (Normal (UpdateResult r), []) /\
    success r = true /\
    updatedCount r
      = integer (Z.of_nat (List.length (UI.orders Samples.searched))).
Proof.
  apply (update_outcome_is_a_count
           Samples.full_pages Samples.searched Samples.update_3).
  - reflexivity.
  - reflexivity.
Defined.

(** C7, refuted as stated. The update response depends on the number of
    submitted orders only: an update for order 1 alone and an update for
    order 2 alone produce the same response, so no succeeded and failed
    identifier sets read from the response can partition the attempted
    set. *)
Lemma update_outcome_has_no_identifier_sets :
  UI.handleBulkUpdate (Samples.found_one Samples.order1)
    = UI.handleBulkUpdate (Samples.found_one Samples.order2) /\
  ~ exists succeeded failed,
      Spec.outcome_partitions_attempted succeeded failed.
Proof.
  split; [reflexivity|].
  intros (succeeded & failed & Hpart).
  set (fd := Samples.form
               [("actionType", "update"); ("fromStatus", "pending");
                ("toStatus", "paid"); ("orderCount", "1")]%string).
  set (r := {| success := true;
               updatedCount := integer 1;
               update_fromStatus := Some (EString (lit "pending"));
               update_toStatus := Some (EString (lit "paid")) |}).
  assert (H1 : Spec.partitions (succeeded r) (failed r)
                 (Spec.attempted_ids (Samples.found_one Samples.order1)))
    by (apply (Hpart Samples.full_pages _ fd r); reflexivity).
  assert (H2 : Spec.partitions (succeeded r) (failed r)
                 (Spec.attempted_ids (Samples.found_one Samples.order2)))
    by (apply (Hpart Samples.full_pages _ fd r); reflexivity).
  destruct H1 as [H1 _], H2 as [H2 _].
  assert (Hin : In (VStr (lit "gid://shopify/Order/1"))
                   (Spec.attempted_ids (Samples.found_one Samples.order2))).
  { apply H2, H1. now left. }
  destruct Hin as [Heq | []]. discriminate Heq.
Qed.

(** ** Guards *)

Lemma handleBulkUpdate_without_orders (c : UI.Component) :
  UI.orders c = [] ->
  UI.handleBulkUpdate c =
    UI.ToastError
      (if UI.is_empty (UI.toStatus c)
       then lit "Please select a status to update to"
       else lit "No orders found to update").
Proof.
  intros Horders. unfold UI.handleBulkUpdate. rewrite Horders.
  now destruct (UI.is_empty (UI.toStatus c)).
Qed.

Lemma orders_without_search (c : UI.Component) :
  UI.hasSearched c = false -> UI.orders c = [].
Proof.
  unfold UI.hasSearched, UI.orders.
  destruct (UI.data (UI.fetcher c)) as [[r|r|e]|];
    [discriminate | reflexivity..].
Qed.

Lemma accepted_update_not_rejected (r : UpdateReturn) :
  success r = true -> ~ Spec.rejected (Normal (UpdateResult r)).
Proof. cbn. intros -> H. discriminate H. Qed.

(** C5, as amended. The action keeps no job phase: an update POST is
    accepted with success true whatever preceded it, and makes no remote
    call. The phase is guarded in the component only: while the fetcher
    holds no search response the update button is not rendered, and
    handleBulkUpdate shows an error toast and submits nothing. *)
Theorem update_phase_guarded_by_component_only
  (remote : Remote) (fd : FormData) (c : UI.Component) :
  get fd (lit "actionType") = Some (EString (lit "update")) ->
  UI.hasSearched c = false ->
  (exists r, run remote (action fd) = (Normal (UpdateResult r), []) /\
             success r = true /\
             ~ Spec.rejected (fst (run remote (action fd)))) /\
  UI.update_button_rendered c = false /\
  exists message, UI.handleBulkUpdate c = UI.ToastError message.
Proof.
  intros Hupdate Hsearched. split; [|split].
  - rewrite (run_update remote fd Hupdate). eexists.
    repeat split. now apply accepted_update_not_rejected.
  - unfold UI.update_button_rendered. now rewrite Hsearched.
  - rewrite (handleBulkUpdate_without_orders c
               (orders_without_search c Hsearched)).
    eauto.
Qed.

Lemma update_phase_guarded_by_component_only_witness :
  (exists r,
     run Samples.full_pages (action Samples.update_unsearched)
       = (Normal (UpdateResult r), []) /\
     success r = true /\
     ~ Spec.rejected
         (fst (run Samples.full_pages (action Samples.update_unsearched)))) /\
  UI.update_button_rendered Samples.fresh = false /\
  exists message, UI.handleBulkUpdate Samples.fresh = UI.ToastError message.
Proof.
  apply (update_phase_guarded_by_component_only
           Samples.full_pages Samples.update_unsearched Samples.fresh);
    reflexivity.
Defined.

(** C5, refuted as stated. An update POST that arrives with no search
    before it, so for a job that is still idle, is not rejected: the action
    answers success true with updatedCount 0. *)
Lemma update_accepted_without_search :
  run Samples.full_pages (action Samples.update_unsearched) =
    (Normal (UpdateResult
       {| success := true;
          updatedCount := integer 0;
          update_fromStatus := None;
          update_toStatus := Some (EString (lit "paid")) |}), []) /\
  ~ (Spec.rejected
       (fst (run Samples.full_pages (action Samples.update_unsearched))) /\
     mutation_calls
       (snd (run Samples.full_pages (action Samples.update_unsearched))) = []).
Proof.
  split; [reflexivity|].
  intros [Hrejected _]. discriminate Hrejected.
Qed.

(** [handleBulkUpdate] reads the fetcher's data, not its state: with a
    second search in flight it submits an update for the orders of the
    first. *)
Example update_submitted_while_searching :
  UI.isSearching Samples.searching_again = true /\
  UI.update_button_rendered Samples.searching_again = true /\
  UI.handleBulkUpdate Samples.searching_again = UI.Submit Samples.update_3.
Proof. repeat split. Qed.

(** C6, as amended. For every update, also when the remote side would
    answer every mutation call with a rate-limit error, the action attempts
    no mutation at all: no call, hence no attempt and no retry for any
    target. It reports success true and records no item as failed. *)
Theorem update_attempts_no_mutation (remote : Remote) (fd : FormData) :
  get fd (lit "actionType") = Some (EString (lit "update")) ->
  List.length (mutation_calls (snd (run remote (action fd)))) = 0%nat /\
  (forall target,
     Spec.attempts_on target (snd (run remote (action fd))) = []) /\
  (exists r, fst (run remote (action fd)) = Normal (UpdateResult r) /\
             success r = true) /\
  ~ Spec.rejected (fst (run remote (action fd))).
Proof.
  intros Hupdate. rewrite (run_update remote fd Hupdate).
  split; [reflexivity|]. split; [reflexivity|].
  split; [eexists; split; reflexivity|].
  now apply accepted_update_not_rejected.
Qed.

Lemma update_attempts_no_mutation_witness :
  List.length
    (mutation_calls
       (snd (run always_rate_limited (action Samples.update_3)))) = 0%nat /\
  (forall target,
     Spec.attempts_on target
       (snd (run always_rate_limited (action Samples.update_3))) = []) /\
  (exists r,
     fst (run always_rate_limited (action Samples.update_3))
       = Normal (UpdateResult r) /\
     success r = true) /\
  ~ Spec.rejected (fst (run always_rate_limited (action Samples.update_3))).
Proof.
  apply (update_attempts_no_mutation always_rate_limited Samples.update_3).
  reflexivity.
Defined.

(** C6, refuted as stated. The remote side answers every call with a
    rate-limit error and the max-attempts count is three. In an update for
    three orders, order 1 is attempted zero times, not three, and is not
    recorded as failed: the action reports success. *)
Lemma update_never_retries :
  List.length
    (Spec.attempts_on (edge_id Samples.order1)
       (snd (run always_rate_limited (action Samples.update_3)))) = 0%nat /\
  ~ Spec.rejected (fst (run always_rate_limited (action Samples.update_3))) /\
  ~ Spec.retried_then_failed 3 (edge_id Samples.order1)
      (run always_rate_limited (action Samples.update_3)).
Proof.
  split; [reflexivity|]. split.
  - intros Hrejected. discriminate Hrejected.
  - intros [Hattempts _]. discriminate Hattempts.
Qed.

(** C8, as amended. The action validates neither status. Whatever
    fromStatus is, a search sends the query financial_status:<fromStatus> to
    the remote side, and an update answers success with toStatus passed
    through. The only checks are in the component: handleSearch submits
    nothing when fromStatus is empty, and submits any other value
    unchanged. *)
Theorem status_checked_for_emptiness_only
  (remote : Remote) (fd fdu : FormData) (c : UI.Component) :
  get fd (lit "actionType") = Some (EString (lit "search")) ->
  get fdu (lit "actionType") = Some (EString (lit "update")) ->
  (let req := GetOrdersByFinancialStatus (get fd (lit "fromStatus")) in
   snd (run remote (action fd)) = [(req, remote req)] /\
   requested_query req
     = lit "financial_status:" ++ to_string (get fd (lit "fromStatus"))) /\
  (exists r, run remote (action fdu) = (Normal (UpdateResult r), []) /\
             success r = true /\
             update_toStatus r = get fdu (lit "toStatus")) /\
  (UI.fromStatus c = [] ->
   exists message, UI.handleSearch c = UI.ToastError message) /\
  (UI.fromStatus c <> [] ->
   exists submitted,
     UI.handleSearch c = UI.Submit submitted /\
     get submitted (lit "actionType") = Some (EString (lit "search")) /\
     get submitted (lit "fromStatus") = Some (EString (UI.fromStatus c))).
Proof.
  intros Hsearch Hupdate. repeat split.
  - apply (search_calls remote fd Hsearch).
  - rewrite (run_update remote fdu Hupdate). eexists. repeat split.
  - intros Hempty. unfold UI.handleSearch. rewrite Hempty. cbn. eauto.
  - intros Hfilled. unfold UI.handleSearch.
    destruct (UI.fromStatus c) as [|u s] eqn:Hfrom; [contradiction|].
    cbn [UI.is_empty]. eexists. repeat split.
Qed.

Lemma status_checked_for_emptiness_only_witness :
  (let req :=
     GetOrdersByFinancialStatus (get Samples.search_bogus (lit "fromStatus")) in
   snd (run Samples.full_pages (action Samples.search_bogus))
     = [(req, Samples.full_pages req)] /\
   requested_query req
     = lit "financial_status:"
       ++ to_string (get Samples.search_bogus (lit "fromStatus"))) /\
  (exists r,
     run Samples.full_pages (action Samples.update_3)
       = (Normal (UpdateResult r), []) /\
     success r = true /\
     update_toStatus r = get Samples.update_3 (lit "toStatus")) /\
  (UI.fromStatus Samples.fresh = [] ->
   exists message, UI.handleSearch Samples.fresh = UI.ToastError message) /\
  (UI.fromStatus Samples.fresh <> [] ->
   exists submitted,
     UI.handleSearch Samples.fresh = UI.Submit submitted /\
     get submitted (lit "actionType") = Some (EString (lit "search")) /\
     get submitted (lit "fromStatus")
       = Some (EString (UI.fromStatus Samples.fresh))).
Proof.
  apply (status_checked_for_emptiness_only
           Samples.full_pages Samples.search_bogus Samples.update_3
           Samples.fresh);
    reflexivity.
Defined.

(** C8, refuted as stated. The status "bogus" is not one of the allowed
    values, yet a search for it is not refused: the action calls the remote
    side with the query financial_status:bogus and returns a search
    response. *)
Lemma search_accepts_unknown_status :
  ~ Spec.valid_status (get Samples.search_bogus (lit "fromStatus")) /\
  List.length (snd (run Samples.full_pages (action Samples.search_bogus)))
    = 1%nat /\
  ~ Spec.validation_error
      (run Samples.full_pages (action Samples.search_bogus)).
Proof.
  split; [|split; [reflexivity|]].
  - intros (s & Heq & Hin). injection Heq as <-.
    cbv in Hin. repeat destruct Hin as [Hin | Hin]; try discriminate Hin.
    exact Hin.
  - intros [_ Hcalls]. discriminate Hcalls.
Qed.

(** C9, as amended. An update for no orders is refused by the component
    only: with an empty order list handleBulkUpdate shows an error toast and
    submits nothing. The action does not refuse it: an update POST whose
    orderCount is 0, absent or unparseable is answered success true with
    updatedCount 0. No mutation is attempted either way. *)
Theorem empty_update_refused_by_component_only
  (remote : Remote) (fd : FormData) (c : UI.Component) :
  get fd (lit "actionType") = Some (EString (lit "update")) ->
  Spec.parsed_or_zero (get fd (lit "orderCount")) = integer 0 ->
  UI.orders c = [] ->
  (exists r, run remote (action fd) = (Normal (UpdateResult r), []) /\
             success r = true /\ updatedCount r = integer 0) /\
  exists message, UI.handleBulkUpdate c = UI.ToastError message.
Proof.
  intros Hupdate Hcount Horders. split.
  - rewrite (run_update remote fd Hupdate), Hcount. eexists. repeat split.
  - rewrite (handleBulkUpdate_without_orders c Horders). eauto.
Qed.

Lemma empty_update_refused_by_component_only_witness :
  (exists r,
     run Samples.full_pages (action Samples.update_0)
       = (Normal (UpdateResult r), []) /\
     success r = true /\ updatedCount r = integer 0) /\
  exists message, UI.handleBulkUpdate Samples.fresh = UI.ToastError message.
Proof.
  apply (empty_update_refused_by_component_only
           Samples.full_pages Samples.update_0 Samples.fresh);
    reflexivity.
Defined.

(** C9, refuted as stated. An update POST for zero orders is treated as a
    successful zero-result outcome: the action answers success true with
    updatedCount 0 instead of an error. *)
Lemma empty_update_succeeds :
  run Samples.full_pages (action Samples.update_0) =
    (Normal (UpdateResult
       {| success := true;
          updatedCount := integer 0;
          update_fromStatus := Some (EString (lit "pending"));
          update_toStatus := Some (EString (lit "paid")) |}), []) /\
  ~ Spec.rejected (fst (run Samples.full_pages (action Samples.update_0))).
Proof.
  split; [reflexivity|].
  intros Hrejected. discriminate Hrejected.
Qed.

(** ** Incomplete answers *)

Lemma prop_of_nullish (k : jsstring) (v : value) :
  nullish v = true -> prop k v = VUndefined.
Proof. destruct v; (discriminate || reflexivity). Qed.

(** C10, as amended. For a search whose JSON answer is not null: when the
    data or the orders field is missing, the action returns a search
    response with orders equal to the empty list and hasNextPage false;
    when the pageInfo field is missing, hasNextPage is false and orders are
    the edges that came with the answer, the empty list when there are
    none. *)
Theorem search_tolerates_missing_fields
  (remote : Remote) (fd : FormData) (json : value) :
  get fd (lit "actionType") = Some (EString (lit "search")) ->
  remote (GetOrdersByFinancialStatus (get fd (lit "fromStatus")))
    = Responds json ->
  nullish json = false ->
  exists r,
    fst (run remote (action fd)) = Normal (SearchResult r) /\
    (Spec.missing (lit "data") json \/
     Spec.missing (lit "orders") (Spec.data_of json) ->
     orders r = VArr [] /\ hasNextPage r = VBool false) /\
    (Spec.missing (lit "pageInfo") (Spec.orders_of json) ->
     hasNextPage r = VBool false /\
     orders r = or_else (prop (lit "edges") (Spec.orders_of json)) (VArr [])).
Proof.
  intros Hsearch Hremote Hjson.
  rewrite (run_search remote fd Hsearch). cbv zeta.
  rewrite Hremote, Hjson. cbn [fst].
  eexists. split; [reflexivity|].
  cbn [orders hasNextPage Spec.search_return]. split.
  - intros Hmissing.
    assert (Hnullish : nullish (Spec.orders_of json) = true).
    { destruct Hmissing as [Hdata | Horders]; [|exact Horders].
      unfold Spec.orders_of, Spec.data_of.
      now rewrite (prop_of_nullish _ _ Hdata). }
    rewrite !(prop_of_nullish _ _ Hnullish). split; reflexivity.
  - intros Hmissing. unfold Spec.missing in Hmissing.
    rewrite (prop_of_nullish (lit "hasNextPage") _ Hmissing).
    split; reflexivity.
Qed.

Lemma search_tolerates_missing_fields_witness :
  exists r,
    fst (run (answering Samples.json_without_pageInfo)
             (action Samples.search_pending))
      = Normal (SearchResult r) /\
    (Spec.missing (lit "data") Samples.json_without_pageInfo \/
     Spec.missing (lit "orders")
       (Spec.data_of Samples.json_without_pageInfo) ->
     orders r = VArr [] /\ hasNextPage r = VBool false) /\
    (Spec.missing (lit "pageInfo")
       (Spec.orders_of Samples.json_without_pageInfo) ->
     hasNextPage r = VBool false /\
     orders r
       = or_else (prop (lit "edges")
                       (Spec.orders_of Samples.json_without_pageInfo))
                 (VArr [])).
Proof.
  apply (search_tolerates_missing_fields
           (answering Samples.json_without_pageInfo) Samples.search_pending
           Samples.json_without_pageInfo);
    reflexivity.
Defined.

(** C10, refuted as stated. The answer has data.orders.edges with one order
    and no pageInfo: the search response has hasNextPage false, but its
    orders are that one order, not the empty list. *)
Lemma search_keeps_edges_without_pageInfo :
  Spec.missing_a_field Samples.json_without_pageInfo /\
  fst (run (answering Samples.json_without_pageInfo)
           (action Samples.search_pending)) =
    Normal (SearchResult
      {| orders := VArr [Samples.order1];
         hasNextPage := VBool false;
         search_fromStatus := Some (EString (lit "pending"));
         search_toStatus := Some (EString (lit "paid")) |}) /\
  ~ Spec.empty_search_response
      (fst (run (answering Samples.json_without_pageInfo)
                (action Samples.search_pending))).
Proof.
  split; [right; right; reflexivity|].
  split; [reflexivity|].
  intros (r & Hrun & Horders & _).
  injection Hrun as <-. discriminate Horders.
Qed.

(** An answer that is [null] makes the search throw. *)
Example search_throws_on_null_answer :
  run (answering VNull) (action Samples.search_pending) =
    (Abrupt TypeError,
     [(GetOrdersByFinancialStatus (Some (EString (lit "pending"))),
       Responds VNull)]).
Proof. reflexivity. Qed.

(** Any other action type is answered with the error object and no call. *)
Lemma run_other (remote : Remote) (fd : FormData) :
  is_string (get fd (lit "actionType")) (lit "search") = false ->
  is_string (get fd (lit "actionType")) (lit "update") = false ->
  run remote (action fd) = (Normal (ErrorResult (lit "Invalid action")), []).
Proof.
  intros H1 H2. now rewrite (action_other fd H1 H2).
Qed.

(** * Further properties of the route module *)

(** ** The action: other action types, failures, repeated fields *)

Lemma is_string_false (x : option entry) (s : jsstring) :
  x <> Some (EString s) -> is_string x s = false.
Proof.
  destruct x as [[s'|f]|]; simpl; intros Hx; try reflexivity.
  destruct (string_eqb s' s) eqn:Heq; [|reflexivity].
  apply string_eqb_eq in Heq. now subst s'.
Qed.

(** X1. A request whose actionType is neither the string "search" nor the
    string "update" (another string, a File, or no such field) is answered
    with the object { error: "Invalid action" }, and the remote side is not
    called. *)
Theorem unknown_action_type_is_an_error (remote : Remote) (fd : FormData) :
  get fd (lit "actionType") <> Some (EString (lit "search")) ->
  get fd (lit "actionType") <> Some (EString (lit "update")) ->
  run remote (action fd) = (Normal (ErrorResult (lit "Invalid action")), []).
Proof.
  intros Hsearch Hupdate.
  now rewrite (action_other fd (is_string_false _ _ Hsearch)
                              (is_string_false _ _ Hupdate)).
Qed.

Lemma unknown_action_type_is_an_error_witness :
  run Samples.full_pages (action Samples.delete_form)
    = (Normal (ErrorResult (lit "Invalid action")), []).
Proof.
  apply (unknown_action_type_is_an_error
           Samples.full_pages Samples.delete_form);
    discriminate.
Defined.

(** X2. When the remote call of a search fails, the action throws the
    failure after that one call: it returns no response and does not call
    again. *)
Theorem search_failure_is_thrown
  (remote : Remote) (fd : FormData) (cause : remote_failure) :
  get fd (lit "actionType") = Some (EString (lit "search")) ->
  remote (GetOrdersByFinancialStatus (get fd (lit "fromStatus")))
    = Rejects cause ->
  run remote (action fd) =
    (Abrupt (RemoteError cause),
     [(GetOrdersByFinancialStatus (get fd (lit "fromStatus")),
       Rejects cause)]).
Proof.
  intros Hsearch Hremote.
  rewrite (run_search remote fd Hsearch). cbv zeta. now rewrite Hremote.
Qed.

Lemma search_failure_is_thrown_witness :
  run always_rate_limited (action Samples.search_pending) =
    (Abrupt (RemoteError RateLimited),
     [(GetOrdersByFinancialStatus
         (get Samples.search_pending (lit "fromStatus")),
       Rejects RateLimited)]).
Proof.
  apply (search_failure_is_thrown
           always_rate_limited Samples.search_pending RateLimited);
    reflexivity.
Defined.

(** X3. When the JSON answer of a search is null, the action throws a
    TypeError at [responseJson.data] instead of returning a response. *)
Theorem search_null_answer_is_a_type_error
  (remote : Remote) (fd : FormData) (json : value) :
  get fd (lit "actionType") = Some (EString (lit "search")) ->
  remote (GetOrdersByFinancialStatus (get fd (lit "fromStatus")))
    = Responds json ->
  nullish json = true ->
  run remote (action fd) =
    (Abrupt TypeError,
     [(GetOrdersByFinancialStatus (get fd (lit "fromStatus")),
       Responds json)]).
Proof.
  intros Hsearch Hremote Hjson.
  rewrite (run_search remote fd Hsearch). cbv zeta.
  now rewrite Hremote, Hjson.
Qed.

Lemma search_null_answer_is_a_type_error_witness :
  run (answering VNull) (action Samples.search_pending) =
    (Abrupt TypeError,
     [(GetOrdersByFinancialStatus
         (get Samples.search_pending (lit "fromStatus")),
       Responds VNull)]).
Proof.
  apply (search_null_answer_is_a_type_error
           (answering VNull) Samples.search_pending VNull);
    reflexivity.
Defined.

Lemma or_else_truthy (v fallback : value) :
  truthy fallback = true -> truthy (or_else v fallback) = true.
Proof.
  intros Hf. unfold or_else. now destruct (truthy v) eqn:Hv.
Qed.

(** X4. Whatever a non-null answer holds, the search response is usable by
    the component: orders is never undefined, null or another falsy value,
    hasNextPage is false or a truthy value, and both statuses of the request
    are returned as they were sent. *)
Theorem search_response_fields_are_defined
  (remote : Remote) (fd : FormData) (json : value) :
  get fd (lit "actionType") = Some (EString (lit "search")) ->
  remote (GetOrdersByFinancialStatus (get fd (lit "fromStatus")))
    = Responds json ->
  nullish json = false ->
  exists r,
    fst (run remote (action fd)) = Normal (SearchResult r) /\
    truthy (orders r) = true /\
    (hasNextPage r = VBool false \/ truthy (hasNextPage r) = true) /\
    search_fromStatus r = get fd (lit "fromStatus") /\
    search_toStatus r = get fd (lit "toStatus").
Proof.
  intros Hsearch Hremote Hjson.
  rewrite (run_search remote fd Hsearch). cbv zeta.
  rewrite Hremote, Hjson. cbn [fst].
  eexists. split; [reflexivity|].
  cbn [orders hasNextPage search_fromStatus search_toStatus
       Spec.search_return].
  split; [now apply or_else_truthy|].
  split; [|split; reflexivity].
  unfold or_else.
  destruct (truthy (prop (lit "hasNextPage") _)) eqn:Hmore;
    [right; exact Hmore | now left].
Qed.

Lemma search_response_fields_are_defined_witness :
  exists r,
    fst (run (answering Samples.json_without_pageInfo)
             (action Samples.search_pending))
      = Normal (SearchResult r) /\
    truthy (orders r) = true /\
    (hasNextPage r = VBool false \/ truthy (hasNextPage r) = true) /\
    search_fromStatus r = get Samples.search_pending (lit "fromStatus") /\
    search_toStatus r = get Samples.search_pending (lit "toStatus").
Proof.
  apply (search_response_fields_are_defined
           (answering Samples.json_without_pageInfo) Samples.search_pending
           Samples.json_without_pageInfo);
    reflexivity.
Defined.

Lemma get_app (fd extra : FormData) (name : jsstring) :
  get (fd ++ extra) name =
  match get fd name with
  | Some v => Some v
  | None => get extra name
  end.
Proof.
  induction fd as [|[n v] fd IH]; simpl; [reflexivity|].
  now destruct (string_eqb n name).
Qed.

Lemma get_app_present (fd extra : FormData) (name : jsstring) :
  get fd name <> None -> get (fd ++ extra) name = get fd name.
Proof.
  intros H. rewrite get_app. now destruct (get fd name).
Qed.

(** X5. Of several fields with one name the action reads the first: once a
    request has the four fields actionType, fromStatus, toStatus and
    orderCount, entries appended after them change nothing of what the
    action does or returns. *)
Theorem appended_fields_are_ignored
  (remote : Remote) (fd extra : FormData) :
  get fd (lit "actionType") <> None ->
  get fd (lit "fromStatus") <> None ->
  get fd (lit "toStatus") <> None ->
  get fd (lit "orderCount") <> None ->
  run remote (action (fd ++ extra)) = run remote (action fd).
Proof.
  intros Ha Hf Ht Hc. unfold action.
  now rewrite !get_app_present by assumption.
Qed.

Lemma appended_fields_are_ignored_witness :
  run Samples.full_pages (action (Samples.update_3 ++ Samples.repeated_fields))
    = run Samples.full_pages (action Samples.update_3).
Proof.
  apply (appended_fields_are_ignored
           Samples.full_pages Samples.update_3 Samples.repeated_fields);
    discriminate.
Defined.

(** X6. What handleSearch submits makes the action call the remote side
    once, for 250 orders matching financial_status:<the selected
    fromStatus>, and a search response returns the two selected statuses,
    as strings. *)
Theorem submitted_search_asks_for_selected_status
  (remote : Remote) (c : UI.Component) (fd : FormData) :
  UI.handleSearch c = UI.Submit fd ->
  exists req,
    snd (run remote (action fd)) = [(req, remote req)] /\
    operation req = Query /\
    requested_first req = 250%nat /\
    requested_query req = lit "financial_status:" ++ UI.fromStatus c /\
    forall r,
      fst (run remote (action fd)) = Normal (SearchResult r) ->
      search_fromStatus r = Some (EString (UI.fromStatus c)) /\
      search_toStatus r = Some (EString (UI.toStatus c)).
Proof.
  unfold UI.handleSearch. intros Hsubmit.
  destruct (UI.is_empty (UI.fromStatus c)); [discriminate|].
  injection Hsubmit as <-.
  match goal with
  | |- context [action ?f] => set (fd := f)
  end.
  assert (Hsearch : get fd (lit "actionType") = Some (EString (lit "search")))
    by reflexivity.
  assert (Hfrom : get fd (lit "fromStatus")
                  = Some (EString (UI.fromStatus c))) by reflexivity.
  assert (Hto : get fd (lit "toStatus") = Some (EString (UI.toStatus c)))
    by reflexivity.
  exists (GetOrdersByFinancialStatus (get fd (lit "fromStatus"))).
  split; [exact (search_calls remote fd Hsearch)|].
  split; [reflexivity|]. split; [reflexivity|].
  split; [now rewrite Hfrom|].
  intros r. rewrite (run_search remote fd Hsearch). cbv zeta.
  destruct (remote _) as [json|cause]; [|discriminate].
  destruct (nullish json); [discriminate|].
  cbn [fst]. intros [= <-].
  cbn [search_fromStatus search_toStatus Spec.search_return].
  now rewrite Hfrom, Hto.
Qed.

Lemma submitted_search_asks_for_selected_status_witness :
  exists req,
    snd (run Samples.full_pages (action Samples.search_pending))
      = [(req, Samples.full_pages req)] /\
    operation req = Query /\
    requested_first req = 250%nat /\
    requested_query req
      = lit "financial_status:" ++ UI.fromStatus Samples.searched /\
    forall r,
      fst (run Samples.full_pages (action Samples.search_pending))
        = Normal (SearchResult r) ->
      search_fromStatus r = Some (EString (UI.fromStatus Samples.searched)) /\
      search_toStatus r = Some (EString (UI.toStatus Samples.searched)).
Proof.
  apply (submitted_search_asks_for_selected_status
           Samples.full_pages Samples.searched Samples.search_pending).
  reflexivity.
Defined.

(** ** The component: flags, buttons and what is shown *)

(** X7. The component is never searching and updating at once: isSearching
    and isUpdating read the action type of the same in-flight submission. *)
Theorem never_searching_and_updating (c : UI.Component) :
  ~ (UI.isSearching c = true /\ UI.isUpdating c = true).
Proof.
  unfold UI.isSearching, UI.isUpdating, UI.submitting_action.
  intros [Hs Hu].
  apply andb_true_iff in Hs as [_ Hs]. apply andb_true_iff in Hu as [_ Hu].
  destruct (UI.formData (UI.fetcher c)) as [fd|]; [|discriminate].
  rewrite (is_string_update_not_search _ Hu) in Hs. discriminate.
Qed.

(** X8. Once the fetcher holds a successful update response, the results of
    the search are gone from the page: the order list is empty, neither
    search banner nor the table nor the update button is rendered, the
    "Update Complete!" banner is, and handleBulkUpdate submits nothing until
    a new search is made. *)
Theorem update_response_clears_results (c : UI.Component) :
  UI.hasUpdated c = true ->
  UI.orders c = [] /\
  UI.hasSearched c = false /\
  UI.found_banner_shown c = false /\
  UI.no_orders_banner_shown c = false /\
  UI.table_shown c = false /\
  UI.update_button_rendered c = false /\
  UI.update_complete_shown c = true /\
  exists message, UI.handleBulkUpdate c = UI.ToastError message.
Proof.
  intros Hupdated.
  assert (Hdata : exists r, UI.data (UI.fetcher c)
                            = Some (UI.Response.Update r)).
  { unfold UI.hasUpdated in Hupdated.
    destruct (UI.data (UI.fetcher c)) as [[r|r|e]|]; try discriminate.
    now exists r. }
  destruct Hdata as [r Hdata].
  assert (Horders : UI.orders c = []) by (unfold UI.orders; now rewrite Hdata).
  assert (Hsearched : UI.hasSearched c = false)
    by (unfold UI.hasSearched; now rewrite Hdata).
  unfold UI.found_banner_shown, UI.no_orders_banner_shown, UI.table_shown,
    UI.update_button_rendered, UI.update_complete_shown.
  rewrite Hsearched, Hupdated, Hdata.
  repeat split; try reflexivity; try exact Horders.
  rewrite (handleBulkUpdate_without_orders c Horders). eauto.
Qed.

Lemma update_response_clears_results_witness :
  UI.orders Samples.updated = [] /\
  UI.hasSearched Samples.updated = false /\
  UI.found_banner_shown Samples.updated = false /\
  UI.no_orders_banner_shown Samples.updated = false /\
  UI.table_shown Samples.updated = false /\
  UI.update_button_rendered Samples.updated = false /\
  UI.update_complete_shown Samples.updated = true /\
  exists message, UI.handleBulkUpdate Samples.updated = UI.ToastError message.
Proof.
  apply (update_response_clears_results Samples.updated). reflexivity.
Defined.

(** X9. Whenever the update button is rendered and enabled, a click on it
    submits: handleBulkUpdate shows neither of its error toasts, and the
    submitted form has actionType "update", the two selected statuses and
    the number of listed orders, at least 1, as orderCount. *)
Theorem enabled_update_button_submits (c : UI.Component) :
  UI.update_button_rendered c = true ->
  UI.update_button_disabled c = false ->
  (1 <= List.length (UI.orders c))%nat /\
  exists fd,
    UI.handleBulkUpdate c = UI.Submit fd /\
    get fd (lit "actionType") = Some (EString (lit "update")) /\
    get fd (lit "fromStatus") = Some (EString (UI.fromStatus c)) /\
    get fd (lit "toStatus") = Some (EString (UI.toStatus c)) /\
    get fd (lit "orderCount")
      = Some (EString (length_to_string (List.length (UI.orders c)))).
Proof.
  unfold UI.update_button_rendered, UI.update_button_disabled.
  intros Hrendered Henabled.
  apply andb_true_iff in Hrendered as [_ Hcount].
  apply Nat.ltb_lt in Hcount. split; [lia|].
  unfold UI.handleBulkUpdate. rewrite Henabled.
  destruct (List.length (UI.orders c) =? 0)%nat eqn:Hzero.
  - apply Nat.eqb_eq in Hzero. lia.
  - eexists. split; [reflexivity|]. repeat split.
Qed.

Lemma enabled_update_button_submits_witness :
  (1 <= List.length (UI.orders Samples.searched))%nat /\
  exists fd,
    UI.handleBulkUpdate Samples.searched = UI.Submit fd /\
    get fd (lit "actionType") = Some (EString (lit "update")) /\
    get fd (lit "fromStatus")
      = Some (EString (UI.fromStatus Samples.searched)) /\
    get fd (lit "toStatus") = Some (EString (UI.toStatus Samples.searched)) /\
    get fd (lit "orderCount")
      = Some (EString
                (length_to_string (List.length (UI.orders Samples.searched)))).
Proof.
  apply (enabled_update_button_submits Samples.searched); reflexivity.
Defined.

(** After a search the page shows exactly one of the two search
    banners: "Found n orders", together with the table and the update
    button, when the list is not empty, and "No orders found" alone when it
    is. *)
Theorem one_search_banner (c : UI.Component) :
  UI.hasSearched c = true ->
  UI.found_banner_shown c = negb (UI.no_orders_banner_shown c) /\
  UI.table_shown c = UI.found_banner_shown c /\
  UI.update_button_rendered c = UI.found_banner_shown c /\
  UI.update_complete_shown c = false /\
  (UI.found_banner_shown c = true <-> UI.orders c <> []).
Proof.
  intros Hsearched.
  unfold UI.found_banner_shown, UI.no_orders_banner_shown, UI.table_shown,
    UI.update_button_rendered, UI.update_complete_shown, UI.hasUpdated.
  rewrite Hsearched. cbn [andb].
  split; [now rewrite negb_involutive|].
  split; [reflexivity|]. split; [reflexivity|].
  split.
  - unfold UI.hasSearched in Hsearched.
    now destruct (UI.data (UI.fetcher c)) as [[r|r|e]|].
  - rewrite Nat.ltb_lt.
    destruct (UI.orders c) as [|o os]; cbn [List.length]; split.
    + intros H. lia.
    + intros H. now contradiction H.
    + intros _. discriminate.
    + intros _. lia.
Qed.

Lemma one_search_banner_witness :
  UI.found_banner_shown Samples.searched
    = negb (UI.no_orders_banner_shown Samples.searched) /\
  UI.table_shown Samples.searched = UI.found_banner_shown Samples.searched /\
  UI.update_button_rendered Samples.searched
    = UI.found_banner_shown Samples.searched /\
  UI.update_complete_shown Samples.searched = false /\
  (UI.found_banner_shown Samples.searched = true
   <-> UI.orders Samples.searched <> []).
Proof.
  apply (one_search_banner Samples.searched). reflexivity.
Defined.

(** ** getStatusBadge *)

Lemma label_of_nth (status : jsstring) (i : nat) :
  nth i (UI.label_of status) 0 =
  if nth i status 0 =? 95 then 32 else nth i status 0.
Proof.
  unfold UI.label_of.
  change 0 with ((fun c => if c =? 95 then 32 else c) 0) at 1.
  now rewrite map_nth.
Qed.

(** X10. The text of a status badge is the status with every underscore
    turned into a space and every other code unit kept in place: it has the
    length of the status and holds no underscore. *)
Theorem badge_text_has_no_underscore (status : jsstring) :
  List.length (UI.badge_children (UI.getStatusBadge status))
    = List.length status /\
  ~ In 95 (UI.badge_children (UI.getStatusBadge status)) /\
  forall i,
    nth i (UI.badge_children (UI.getStatusBadge status)) 0 =
    if nth i status 0 =? 95 then 32 else nth i status 0.
Proof.
  cbn [UI.badge_children UI.getStatusBadge].
  split; [apply length_map|]. split; [|apply label_of_nth].
  unfold UI.label_of. intros Hin. apply in_map_iff in Hin as (c & Hc & _).
  destruct (c =? 95) eqn:Heq; [discriminate Hc|].
  apply N.eqb_neq in Heq. contradiction.
Qed.

Lemma no_lower_case_spec (s : jsstring) :
  Spec.no_lower_case s -> Spec.has_lower_case s = false.
Proof.
  unfold Spec.no_lower_case, Spec.has_lower_case.
  induction 1 as [|c s Hc _ IH]; [reflexivity|].
  cbn [existsb]. rewrite IH, orb_false_r.
  destruct (97 <=? c) eqn:Hlo; [|reflexivity].
  destruct (c <=? 122) eqn:Hhi; [|reflexivity].
  apply N.leb_le in Hlo, Hhi. exfalso. apply Hc. lia.
Qed.

Lemma no_lower_case_of_bool (s : jsstring) :
  Spec.has_lower_case s = false -> Spec.no_lower_case s.
Proof.
  unfold Spec.no_lower_case, Spec.has_lower_case.
  induction s as [|c s IH]; cbn [existsb]; intros H; constructor.
  - apply orb_false_iff in H as [H _]. intros [Hlo Hhi].
    apply N.leb_le in Hlo, Hhi. now rewrite Hlo, Hhi in H.
  - apply IH. now apply orb_false_iff in H as [_ H].
Qed.

Lemma inherited_names_have_lower_case :
  forallb Spec.has_lower_case UI.object_prototype_names = true.
Proof. reflexivity. Qed.

(** X11. For a status written without lower-case letters, as the enum
    values of the remote side are, the tone of the badge is the one
    [statusMap] gives it and "info" when the map has no entry for it; no
    such status picks up a member inherited from Object.prototype. *)
Theorem badge_tone_of_enum_status (status : jsstring) :
  Spec.no_lower_case status ->
  UI.badge_tone_prop (UI.getStatusBadge status) =
  UI.Tone match UI.own_tone status UI.statusMap with
          | Some t => t
          | None => UI.ToneInfo
          end.
Proof.
  intros Hupper. cbn [UI.badge_tone_prop UI.getStatusBadge].
  unfold UI.tone_of.
  destruct (UI.own_tone status UI.statusMap); [reflexivity|].
  destruct (existsb (string_eqb status) UI.object_prototype_names) eqn:Hin;
    [|reflexivity].
  apply existsb_exists in Hin as (name & Hname & Heq).
  apply string_eqb_eq in Heq. subst name.
  pose proof inherited_names_have_lower_case as Hall.
  rewrite forallb_forall in Hall.
  specialize (Hall status Hname).
  rewrite (no_lower_case_spec _ Hupper) in Hall. discriminate.
Qed.

Lemma badge_tone_of_enum_status_witness :
  UI.badge_tone_prop (UI.getStatusBadge (lit "PARTIALLY_REFUNDED")) =
  UI.Tone match UI.own_tone (lit "PARTIALLY_REFUNDED") UI.statusMap with
          | Some t => t
          | None => UI.ToneInfo
          end.
Proof.
  apply (badge_tone_of_enum_status (lit "PARTIALLY_REFUNDED")).
  apply no_lower_case_of_bool. reflexivity.
Defined.

(** ** The count an update returns *)

Lemma to_double_is_integral (negative : bool) (z : N) :
  match to_double negative z with
  | NaN => False
  | Infinity _ => True
  | Finite _ e => (0 <= e)%Z
  end.
Proof.
  unfold to_double. destruct (z <? 2 ^ 53); [cbn; lia|].
  cbv zeta. destruct (1024 <=? _); cbn; [exact I | lia].
Qed.

(** X13. The updatedCount of an update response is never NaN and never a
    fraction: it is an integer (a significand times a non-negative power of
    two) or an infinity, whatever the orderCount field holds. *)
Theorem updatedCount_is_a_whole_number (remote : Remote) (fd : FormData) :
  get fd (lit "actionType") = Some (EString (lit "update")) ->
  exists r,
    run remote (action fd) = (Normal (UpdateResult r), []) /\
    match updatedCount r with
    | NaN => False
    | Infinity _ => True
    | Finite _ e => (0 <= e)%Z
    end.
Proof.
  intros Hupdate. rewrite (run_update remote fd Hupdate).
  eexists. split; [reflexivity|]. cbn [updatedCount].
  unfold Spec.parsed_or_zero.
  destruct (get fd (lit "orderCount")) as [[s|f]|]; try (cbn; lia).
  destruct (parseInt_cases s) as [-> | (negative & z & ->)]; [cbn; lia|].
  pose proof (to_double_is_integral negative z) as H.
  now destruct (to_double negative z).
Qed.

Lemma updatedCount_is_a_whole_number_witness :
  exists r,
    run Samples.full_pages (action Samples.update_unsearched)
      = (Normal (UpdateResult r), []) /\
    match updatedCount r with
    | NaN => False
    | Infinity _ => True
    | Finite _ e => (0 <= e)%Z
    end.
Proof.
  apply (updatedCount_is_a_whole_number
           Samples.full_pages Samples.update_unsearched).
  reflexivity.
Defined.

Lemma trim_start_white_space (ws s : jsstring) :
  Forall (fun c => is_white_space c = true) ws ->
  trim_start (ws ++ s) = trim_start s.
Proof.
  induction 1 as [|c ws Hc _ IH]; [reflexivity|].
  cbn [app trim_start]. now rewrite Hc.
Qed.

Lemma parseInt_white_space (ws s : jsstring) :
  Forall (fun c => is_white_space c = true) ws ->
  parseInt (ws ++ s) = parseInt s.
Proof.
  intros Hws. unfold parseInt. now rewrite (trim_start_white_space ws s Hws).
Qed.

Lemma not_decimal_radix_digit (c : code_unit) :
  ~ is_decimal c -> radix_digit 10 c = None.
Proof.
  intros Hc. unfold radix_digit, digit_value, is_decimal in *.
  destruct ((48 <=? c) && (c <=? 57)) eqn:Hd.
  - apply andb_true_iff in Hd as [Hlo Hhi].
    apply N.leb_le in Hlo, Hhi. exfalso. apply Hc. lia.
  - destruct ((97 <=? c) && (c <=? 122)) eqn:Hl.
    + apply andb_true_iff in Hl as [Hlo _]. apply N.leb_le in Hlo.
      assert (H : (c - 97 + 10 <? 10) = false) by (apply N.ltb_ge; lia).
      now rewrite H.
    + destruct ((65 <=? c) && (c <=? 90)) eqn:Hu; [|reflexivity].
      apply andb_true_iff in Hu as [Hlo _]. apply N.leb_le in Hlo.
      assert (H : (c - 65 + 10 <? 10) = false) by (apply N.ltb_ge; lia).
      now rewrite H.
Qed.

Lemma digits_prefix_stops (tail : jsstring) (count : nat) (a : N) :
  Spec.ends_numeral tail -> digits_prefix 10 tail count a = (count, a).
Proof.
  destruct tail as [|c tail]; [reflexivity|].
  intros (Hc & _ & _). cbn [digits_prefix].
  now rewrite (not_decimal_radix_digit c Hc).
Qed.

Lemma digits_prefix_decimal_app (ds tail : jsstring) :
  Forall is_decimal ds ->
  forall count a,
    digits_prefix 10 (ds ++ tail) count a =
    let '(count', a') := digits_prefix 10 ds count a in
    digits_prefix 10 tail count' a'.
Proof.
  induction 1 as [|c ds Hc _ IH]; intros count a.
  - cbn [app digits_prefix]. reflexivity.
  - cbn [app digits_prefix]. rewrite (decimal_radix_digit c Hc). apply IH.
Qed.

(** The digits of a count, whatever follows them. *)
Lemma numeral_then_tail (len : nat) (tail : jsstring) :
  Spec.ends_numeral tail ->
  exists c0 rest k,
    length_to_string len ++ tail = c0 :: rest /\
    is_decimal c0 /\
    match rest with
    | [] => True
    | c1 :: _ => c1 <> 120 /\ c1 <> 88
    end /\
    digits_prefix 10 (c0 :: rest) 0 0 = (S k, N.of_nat len).
Proof.
  intros Htail.
  destruct (length_to_string_digits len) as (Hall & Hne & k & Hk).
  assert (Hprefix : digits_prefix 10 (length_to_string len ++ tail) 0 0
                    = (S k, N.of_nat len)).
  { rewrite (digits_prefix_decimal_app _ tail Hall), Hk.
    now apply digits_prefix_stops. }
  destruct (length_to_string len) as [|c0 ds]; [contradiction|].
  inversion Hall as [|? ? Hc0 Hds]; subst.
  exists c0, (ds ++ tail), k.
  split; [reflexivity|]. split; [exact Hc0|]. split; [|exact Hprefix].
  destruct ds as [|c1 ds].
  - destruct tail as [|t tail]; [exact I|]. cbn [app].
    now destruct Htail as (_ & Hx & HX).
  - inversion Hds as [|? ? [Hlo Hhi] _]; subst. cbn [app]. split; lia.
Qed.

Ltac skip_hex_prefix rest Hrest :=
  destruct rest as [|? ?];
  [| let Hx := fresh "Hx" in
     let HX := fresh "HX" in
     destruct Hrest as [Hx HX];
     apply N.eqb_neq in Hx, HX; rewrite Hx, HX, andb_false_r ].

Lemma parseInt_numeral (len : nat) (tail : jsstring) :
  Spec.ends_numeral tail ->
  N.of_nat len < 2 ^ 53 ->
  parseInt (length_to_string len ++ tail) = integer (Z.of_nat len).
Proof.
  intros Htail Hlen.
  destruct (numeral_then_tail len tail Htail)
    as (c0 & rest & k & -> & Hc0 & Hrest & Hdigits).
  unfold parseInt. cbn [trim_start].
  rewrite (decimal_not_white_space _ Hc0).
  assert (H45 : (c0 =? 45) = false) by (apply N.eqb_neq; destruct Hc0; lia).
  assert (H43 : (c0 =? 43) = false) by (apply N.eqb_neq; destruct Hc0; lia).
  rewrite H45, H43. cbn [orb]. cbv iota.
  apply N.ltb_lt in Hlen.
  skip_hex_prefix rest Hrest; rewrite Hdigits; unfold to_double;
    rewrite Hlen; unfold integer, signed; f_equal; lia.
Qed.

Lemma parseInt_minus_numeral (len : nat) (tail : jsstring) :
  Spec.ends_numeral tail ->
  N.of_nat len < 2 ^ 53 ->
  parseInt (45 :: length_to_string len ++ tail)
    = integer (- Z.of_nat len).
Proof.
  intros Htail Hlen.
  destruct (numeral_then_tail len tail Htail)
    as (c0 & rest & k & -> & Hc0 & Hrest & Hdigits).
  unfold parseInt. cbn [trim_start].
  change (is_white_space 45) with false. cbv iota.
  change (45 =? 45) with true. rewrite orb_true_r. cbv iota.
  apply N.ltb_lt in Hlen.
  skip_hex_prefix rest Hrest; rewrite Hdigits; unfold to_double;
    rewrite Hlen; unfold integer, signed; f_equal; lia.
Qed.

(** X14. An update reads a count that is padded: with white space before
    the digits of n and, after them, any text that does not go on with a
    digit or with the x of a hexadecimal prefix, updatedCount is n. *)
Theorem padded_count_is_read
  (remote : Remote) (fd : FormData) (ws tail : jsstring) (n : nat) :
  get fd (lit "actionType") = Some (EString (lit "update")) ->
  get fd (lit "orderCount")
    = Some (EString (ws ++ length_to_string n ++ tail)) ->
  Forall (fun c => is_white_space c = true) ws ->
  Spec.ends_numeral tail ->
  N.of_nat n < 2 ^ 53 ->
  exists r,
    run remote (action fd) = (Normal (UpdateResult r), []) /\
    updatedCount r = integer (Z.of_nat n).
Proof.
  intros Hupdate Hcount Hws Htail Hn.
  rewrite (run_update remote fd Hupdate), Hcount.
  eexists. split; [reflexivity|]. cbn [updatedCount].
  unfold Spec.parsed_or_zero.
  now rewrite (parseInt_white_space ws _ Hws), (parseInt_numeral n tail Htail Hn).
Qed.

Lemma padded_count_is_read_witness :
  exists r,
    run Samples.full_pages (action Samples.padded_update)
      = (Normal (UpdateResult r), []) /\
    updatedCount r = integer (Z.of_nat 3).
Proof.
  apply (padded_count_is_read
           Samples.full_pages Samples.padded_update
           (lit "  ") (lit " orders") 3).
  - reflexivity.
  - reflexivity.
  - repeat constructor.
  - change (Spec.ends_numeral (32 :: lit "orders")).
    cbn [Spec.ends_numeral]. unfold is_decimal. lia.
  - reflexivity.
Defined.

(** X15. An update does not refuse a negative count: for an orderCount
    written as a minus sign and the digits of n, updatedCount is -n. *)
Theorem negative_count_is_returned
  (remote : Remote) (fd : FormData) (tail : jsstring) (n : nat) :
  get fd (lit "actionType") = Some (EString (lit "update")) ->
  get fd (lit "orderCount")
    = Some (EString (45 :: length_to_string n ++ tail)) ->
  Spec.ends_numeral tail ->
  N.of_nat n < 2 ^ 53 ->
  exists r,
    run remote (action fd) = (Normal (UpdateResult r), []) /\
    success r = true /\
    updatedCount r = integer (- Z.of_nat n).
Proof.
  intros Hupdate Hcount Htail Hn.
  rewrite (run_update remote fd Hupdate), Hcount.
  eexists. split; [reflexivity|]. split; [reflexivity|].
  cbn [updatedCount]. unfold Spec.parsed_or_zero.
  now rewrite (parseInt_minus_numeral n tail Htail Hn).
Qed.

Lemma negative_count_is_returned_witness :
  exists r,
    run Samples.full_pages (action Samples.negative_update)
      = (Normal (UpdateResult r), []) /\
    success r = true /\
    updatedCount r = integer (- Z.of_nat 3).
Proof.
  apply (negative_count_is_returned
           Samples.full_pages Samples.negative_update [] 3).
  - reflexivity.
  - reflexivity.
  - exact I.
  - reflexivity.
Defined.

(** ** What the action never does *)

(** X16. A search request that has no fromStatus field is not refused: the
    action still calls the remote side, with the query
    financial_status:null. *)
Theorem search_without_status_queries_null
  (remote : Remote) (fd : FormData) :
  get fd (lit "actionType") = Some (EString (lit "search")) ->
  get fd (lit "fromStatus") = None ->
  exists req,
    snd (run remote (action fd)) = [(req, remote req)] /\
    requested_query req = lit "financial_status:null".
Proof.
  intros Hsearch Hfrom.
  exists (GetOrdersByFinancialStatus (get fd (lit "fromStatus"))).
  split; [exact (search_calls remote fd Hsearch)|].
  now rewrite Hfrom.
Qed.

Lemma search_without_status_queries_null_witness :
  exists req,
    snd (run Samples.full_pages (action Samples.search_without_status))
      = [(req, Samples.full_pages req)] /\
    requested_query req = lit "financial_status:null".
Proof.
  apply (search_without_status_queries_null
           Samples.full_pages Samples.search_without_status);
    reflexivity.
Defined.

(** X17. Whatever the request and whatever the remote side answers, one run
    of the action makes at most one remote call, and that call is never a
    mutation. *)
Theorem action_calls_at_most_once_and_never_mutates
  (remote : Remote) (fd : FormData) :
  (List.length (snd (run remote (action fd))) <= 1)%nat /\
  mutation_calls (snd (run remote (action fd))) = [].
Proof.
  destruct (is_string (get fd (lit "actionType")) (lit "search")) eqn:Hs.
  - rewrite (action_search fd Hs). unfold graphql. cbn [bind run].
    destruct (remote _) as [json|cause]; [|split; [cbn; lia | reflexivity]].
    unfold get_member. destruct (member json (lit "data"));
      cbn [bind run snd List.length]; split; (lia || reflexivity).
  - destruct (is_string (get fd (lit "actionType")) (lit "update")) eqn:Hu.
    + rewrite (action_update fd Hu). cbn. split; [lia | reflexivity].
    + rewrite (action_other fd Hs Hu). cbn. split; [lia | reflexivity].
Qed.
